(** * janus_client.transport: transactions, sessions and the HTTP transport

    A shallow embedding of [janus_client/transport.py]: the abstract
    [JanusTransport] (create_session, destroy_session), the dataclass
    [JanusMessage] and the concrete [JanusTransportHTTP] (__init__,
    __sanitize_message, __build_uri, send, receive).

    Python values are modelled as follows.
    - A [str] is a [string]; every character is a code point below 256.
    - A JSON-serialisable value is a [json]; numbers are integers.
    - A [dict] with string keys is an association list in insertion
      order without repeated keys, as [json.dumps] and [repr] walk it.
    - The two registries are [gmap]s: they are only looked up, inserted
      into and deleted from by key.
    - A coroutine is a function of the [World]; it returns, raises or
      stays suspended for ever ([Pending]). *)

From stdpp Require Import gmap strings list fin_maps.
From Stdlib Require Import ZArith DecimalString Ascii.

Set Warnings "-register-all".
Open Scope Z_scope.

(** ** Python values *)

Inductive json : Type :=
  | JNull
  | JBool (b : bool)
  | JInt (z : Z)
  | JStr (s : string)
  | JList (l : list json)
  | JDict (d : list (string * json)).

(** A [dict] whose keys are strings. *)
Abbreviation pydict := (list (string * json)).

Module PyStr.

(** str(z) for an int. *)
Definition of_Z (z : Z) : string := NilZero.string_of_int (Z.to_int z).

Definition hex_digit (n : N) : ascii :=
  if (n <? 10)%N then ascii_of_N (48 + n) else ascii_of_N (87 + n).

(** Two lower-case hexadecimal digits of a code point below 256. *)
Definition hex2 (c : ascii) : string :=
  let n := N_of_ascii c in
  String (hex_digit (n / 16)) (String (hex_digit (n mod 16)) EmptyString).

Definition mem (c : ascii) (s : string) : bool :=
  match String.index 0 (String c EmptyString) s with
  | Some _ => true
  | None => false
  end.

(** s.rstrip("/"): drop every trailing slash. *)
Fixpoint rstrip_slash (s : string) : string :=
  match s with
  | EmptyString => EmptyString
  | String c r =>
      match rstrip_slash r with
      | EmptyString => if Ascii.eqb c "/" then EmptyString else String c EmptyString
      | r' => String c r'
      end
  end.

(** s[:n] *)
Fixpoint take (n : nat) (s : string) : string :=
  match n, s with
  | S n', String c r => String c (take n' r)
  | _, _ => EmptyString
  end.

(** [t] occurs in [s] (Python's [t in s]). *)
Definition occurs_in (t s : string) : Prop :=
  ∃ before after, s = before +:+ t +:+ after.

Fixpoint occurs_inb (t s : string) : bool :=
  String.prefix t s ||
  match s with
  | EmptyString => false
  | String _ r => occurs_inb t r
  end.

(** Printable ASCII other than the double quote and the backslash:
    json.dumps leaves such a character as it is. *)
Definition plain_char (c : ascii) : bool :=
  let n := N_of_ascii c in
  ((32 <=? n) && (n <=? 126) && negb (n =? 34) && negb (n =? 92))%N.

Fixpoint plain (s : string) : bool :=
  match s with
  | EmptyString => true
  | String c r => plain_char c && plain r
  end.

End PyStr.

Module Json.

(** The double quote and the backslash, as one-character strings. *)
Definition quote : string := String (ascii_of_N 34) EmptyString.
Definition backslash : string := String (ascii_of_N 92) EmptyString.

(** json.encoder.py_encode_basestring_ascii, on one character: the
    json module's default is ensure_ascii=True. *)
Definition escape_char (c : ascii) : string :=
  let n := N_of_ascii c in
  if (n =? 34)%N then backslash +:+ quote
  else if (n =? 92)%N then "\\"
  else if (n =? 8)%N then "\b"
  else if (n =? 12)%N then "\f"
  else if (n =? 10)%N then "\n"
  else if (n =? 13)%N then "\r"
  else if (n =? 9)%N then "\t"
  else if ((32 <=? n) && (n <=? 126))%N then String c EmptyString
  else "\u00" +:+ PyStr.hex2 c.

Fixpoint escape (s : string) : string :=
  match s with
  | EmptyString => EmptyString
  | String c r => escape_char c +:+ escape r
  end.

Definition dumps_str (s : string) : string := quote +:+ escape s +:+ quote.

(** json.dumps(v) with the default separators (", " and ": "). *)
Fixpoint dumps (v : json) : string :=
  match v with
  | JNull => "null"
  | JBool true => "true"
  | JBool false => "false"
  | JInt z => PyStr.of_Z z
  | JStr s => dumps_str s
  | JList l => "[" +:+ String.concat ", " (map dumps l) +:+ "]"
  | JDict d =>
      "{" +:+ String.concat ", "
                (map (λ kv, dumps_str (fst kv) +:+ ": " +:+ dumps (snd kv)) d)
          +:+ "}"
  end.

End Json.

Module PyRepr.

(** str.isprintable() on a code point in 128..255: the control
    characters 128..159, the no-break space and the soft hyphen are
    not printable. *)
Definition printable_latin1 (n : N) : bool :=
  ((160 <? n) && negb (n =? 173))%N.

(** One character of repr(s), [q] being the quote in use. *)
Definition escape_char (q c : ascii) : string :=
  let n := N_of_ascii c in
  if (Ascii.eqb c q || (n =? 92)%N)%bool then Json.backslash +:+ String c EmptyString
  else if (n =? 9)%N then "\t"
  else if (n =? 10)%N then "\n"
  else if (n =? 13)%N then "\r"
  else if ((n <? 32) || (n =? 127))%N then "\x" +:+ PyStr.hex2 c
  else if (n <? 127)%N then String c EmptyString
  else if printable_latin1 n then String c EmptyString
  else "\x" +:+ PyStr.hex2 c.

Fixpoint escape (q : ascii) (s : string) : string :=
  match s with
  | EmptyString => EmptyString
  | String c r => escape_char q c +:+ escape q r
  end.

(** repr(s): single quotes unless [s] has a single quote and no
    double quote. *)
Definition repr_str (s : string) : string :=
  let q := if (PyStr.mem "'" s && negb (PyStr.mem (ascii_of_N 34) s))%bool
           then ascii_of_N 34 else "'"%char in
  String q (escape q s) +:+ String q EmptyString.

Fixpoint repr (v : json) : string :=
  match v with
  | JNull => "None"
  | JBool true => "True"
  | JBool false => "False"
  | JInt z => PyStr.of_Z z
  | JStr s => repr_str s
  | JList l => "[" +:+ String.concat ", " (map repr l) +:+ "]"
  | JDict d =>
      "{" +:+ String.concat ", "
                (map (λ kv, repr_str (fst kv) +:+ ": " +:+ repr (snd kv)) d)
          +:+ "}"
  end.

(** str(v), what an f-string puts for {v}. *)
Definition str (v : json) : string :=
  match v with
  | JStr s => s
  | _ => repr v
  end.

End PyRepr.

(** ** Dictionaries in insertion order *)

Module Dict.

(** d.get(k) *)
Fixpoint get (k : string) (d : pydict) : option json :=
  match d with
  | [] => None
  | (k', v) :: r => if String.eqb k k' then Some v else get k r
  end.

(** k in d *)
Definition contains (k : string) (d : pydict) : bool :=
  match get k d with Some _ => true | None => false end.

(** d[k] = v: an existing key keeps its place, a new key goes last. *)
Fixpoint set (k : string) (v : json) (d : pydict) : pydict :=
  match d with
  | [] => [(k, v)]
  | (k', v') :: r =>
      if String.eqb k k' then (k', v) :: r else (k', v') :: set k v r
  end.

End Dict.

(** ** Exceptions and outcomes *)

Inductive PyExc : Type :=
  | Exception (msg : string)
  | TypeError (msg : string)
  | KeyError (key : json)
  | AttributeError (msg : string)
  | ValueError (msg : string)
  | TimeoutError
  | ClientError (msg : string).

(** type(e).__name__ *)
Definition class_name (e : PyExc) : string :=
  match e with
  | Exception _ => "Exception"
  | TypeError _ => "TypeError"
  | KeyError _ => "KeyError"
  | AttributeError _ => "AttributeError"
  | ValueError _ => "ValueError"
  | TimeoutError => "TimeoutError"
  | ClientError _ => "ClientError"
  end.

(** How a call ends: it returns, it raises, or it awaits something that
    never comes. *)
Inductive Outcome (A : Type) : Type :=
  | Returned (a : A)
  | Raised (e : PyExc)
  | Pending.
Arguments Returned {A} a.
Arguments Raised {A} e.
Arguments Pending {A}.

(** A computation over a state [S]. *)
Definition Py (S A : Type) : Type := S → Outcome A * S.

Definition Py_ret {S A} (a : A) : Py S A := λ s, (Returned a, s).

Definition Py_bind {S A B} (f : A → Py S B) (c : Py S A) : Py S B :=
  λ s, match c s with
       | (Returned a, s') => f a s'
       | (Raised e, s') => (Raised e, s')
       | (Pending, s') => (Pending, s')
       end.

#[export] Instance Py_MRet S : MRet (Py S) := @Py_ret S.
#[export] Instance Py_MBind S : MBind (Py S) := @Py_bind S.

Definition raise {S A} (e : PyExc) : Py S A := λ s, (Raised e, s).
Definition suspend {S A} : Py S A := λ s, (Pending, s).
Definition get_state {S} : Py S S := λ s, (Returned s, s).
Definition modify {S} (f : S → S) : Py S unit := λ s, (Returned tt, f s).
Definition of_option {S A} (e : PyExc) (o : option A) : Py S A :=
  match o with Some a => mret a | None => raise e end.

(** ** The world the transport runs in *)

Module JanusSession.
(** Modelled from the spec: the class JanusSession of
    janus_client/session.py, which transport.py only names in type
    hints. A session has the "numeric identifier assigned by the
    server"; the transport reads nothing else of it. *)
Record t : Type := { id : Z }.
End JanusSession.

(** An asyncio.Queue: the items put and not yet got, oldest first. *)
Abbreviation Queue := (list json).
Definition Queue_new : Queue := [].

Inductive Level : Type := WARNING | INFO.

(** A record handed to [logger]. *)
Record LogRecord : Type := { levelname : Level; msg : string }.

(** What aiohttp gives back for a GET: the status, the content-type
    header (if the reply has one) and the decoded body (or the error of
    decoding it). *)
Record HttpResponse : Type :=
  { status : Z; content_type : option string; text : PyExc + string }.

Inductive HttpExchange : Type :=
  | Fails (e : PyExc)
  | Responds (r : HttpResponse).

(** [transactions] and [sessions] are the two dicts made once, in the
    body of class JanusTransportHTTP. [uuid4_hex] lists the values of
    the successive uuid.uuid4().hex, [http] what a GET of a URI meets. *)
Record World : Type :=
  { transactions : gmap string Queue;
    sessions : gmap Z JanusSession.t;
    uuid4_hex : nat → string;
    uuid4_calls : nat;
    http : string → HttpExchange;
    log : list LogRecord;
    stdout : list string;
    requested : list string }.

Definition set_transactions (f : gmap string Queue → gmap string Queue) (w : World) : World :=
  {| transactions := f (transactions w); sessions := sessions w;
     uuid4_hex := uuid4_hex w; uuid4_calls := uuid4_calls w; http := http w;
     log := log w; stdout := stdout w; requested := requested w |}.

Definition set_sessions (f : gmap Z JanusSession.t → gmap Z JanusSession.t) (w : World) : World :=
  {| transactions := transactions w; sessions := f (sessions w);
     uuid4_hex := uuid4_hex w; uuid4_calls := uuid4_calls w; http := http w;
     log := log w; stdout := stdout w; requested := requested w |}.

Definition add_log (r : LogRecord) (w : World) : World :=
  {| transactions := transactions w; sessions := sessions w;
     uuid4_hex := uuid4_hex w; uuid4_calls := uuid4_calls w; http := http w;
     log := log w ++ [r]; stdout := stdout w; requested := requested w |}.

Definition add_stdout (line : string) (w : World) : World :=
  {| transactions := transactions w; sessions := sessions w;
     uuid4_hex := uuid4_hex w; uuid4_calls := uuid4_calls w; http := http w;
     log := log w; stdout := stdout w ++ [line]; requested := requested w |}.

Definition add_requested (u : string) (w : World) : World :=
  {| transactions := transactions w; sessions := sessions w;
     uuid4_hex := uuid4_hex w; uuid4_calls := uuid4_calls w; http := http w;
     log := log w; stdout := stdout w; requested := requested w ++ [u] |}.

Definition count_uuid4 (w : World) : World :=
  {| transactions := transactions w; sessions := sessions w;
     uuid4_hex := uuid4_hex w; uuid4_calls := Datatypes.S (uuid4_calls w); http := http w;
     log := log w; stdout := stdout w; requested := requested w |}.

(** uuid.uuid4().hex *)
Definition uuid4 : Py World string :=
  λ w, (Returned (uuid4_hex w (uuid4_calls w)), count_uuid4 w).

(** logger.warn(text), logger.info(text) *)
Definition logger (l : Level) (text : string) : Py World unit :=
  modify (add_log {| levelname := l; msg := text |}).

(** print(...), the arguments already joined by spaces. *)
Definition print (line : string) : Py World unit := modify (add_stdout line).

(** ** The data class and the abstract transport *)

Record JanusMessage : Type := { janus : string; transaction : string }.

(** Lines 17-20. The __init__ that @dataclass writes: both fields are
    required, a call without one of them raises TypeError. *)
Definition JanusMessage_init (janus transaction : option string) : Outcome JanusMessage :=
  match janus, transaction with
  | Some j, Some t => Returned {| janus := j; transaction := t |}
  | Some _, None =>
      Raised (TypeError "JanusMessage.__init__() missing 1 required positional argument: 'transaction'")
  | None, Some _ =>
      Raised (TypeError "JanusMessage.__init__() missing 1 required positional argument: 'janus'")
  | None, None =>
      Raised (TypeError "JanusMessage.__init__() missing 2 required positional arguments: 'janus' and 'transaction'")
  end.

Definition lift {S A} (o : Outcome A) : Py S A := λ s, (o, s).

(** v[key] for a string key. *)
Definition getitem (v : json) (key : string) : Outcome json :=
  match v with
  | JDict d =>
      match Dict.get key d with
      | Some x => Returned x
      | None => Raised (KeyError (JStr key))
      end
  | JStr _ => Raised (TypeError "string indices must be integers, not 'str'")
  | JList _ => Raised (TypeError "list indices must be integers or slices, not str")
  | JInt _ => Raised (TypeError "'int' object is not subscriptable")
  | JBool _ => Raised (TypeError "'bool' object is not subscriptable")
  | JNull => Raised (TypeError "'NoneType' object is not subscriptable")
  end.

(** del self.sessions[key] *)
Definition sessions_delitem (key : Z) : Py World unit :=
  λ w, match sessions w !! key with
       | Some _ => (Returned tt, set_sessions (delete key) w)
       | None => (Raised (KeyError (JInt key)), w)
       end.

Module JanusTransport.
Section Methods.

(** The abstract method [send]: a subclass gives it. *)
Variable send : JanusMessage → Py World json.

(** int(s) on a str: the integer that the text [s] reads as, if any. *)
Variable int_of_str : string → option Z.

(** int(v) *)
Definition py_int (v : json) : Outcome Z :=
  match v with
  | JInt z => Returned z
  | JBool b => Returned (if b then 1 else 0)
  | JStr s =>
      match int_of_str s with
      | Some z => Returned z
      | None =>
          Raised (ValueError ("invalid literal for int() with base 10: " +:+ PyRepr.repr_str s))
      end
  | JNull =>
      Raised (TypeError "int() argument must be a string, a bytes-like object or a real number, not 'NoneType'")
  | JList _ =>
      Raised (TypeError "int() argument must be a string, a bytes-like object or a real number, not 'list'")
  | JDict _ =>
      Raised (TypeError "int() argument must be a string, a bytes-like object or a real number, not 'dict'")
  end.

(** int(response["data"]["id"]) *)
Definition session_id_of (response : json) : Outcome Z :=
  match getitem response "data" with
  | Returned data =>
      match getitem data "id" with
      | Returned ident => py_int ident
      | Raised e => Raised e
      | Pending => Pending
      end
  | Raised e => Raised e
  | Pending => Pending
  end.

(** Lines 31-42. The argument of [send] is built first; building it
    raises. *)
Definition create_session (session : JanusSession.t) : Py World Z :=
  message ← lift (JanusMessage_init (Some "create") None);
  response ← send message;
  session_id ← lift (session_id_of response);
  modify (set_sessions (<[session_id := session]>));;
  mret session_id.

(** Lines 45-46: del self.sessions[session.id] *)
Definition destroy_session (session : JanusSession.t) : Py World unit :=
  sessions_delitem (JanusSession.id session).

End Methods.
End JanusTransport.

(** ** The HTTP transport *)

Module JanusTransportHTTP.

(** Lines 55-64. What __init__ binds on the instance. The class attributes
    [connected], [transactions] and [sessions] are not bound again:
    they stay on the class, in the [World]. *)
Record t : Type :=
  { uri : string; api_secret : option string; token : option string }.

Definition init (uri : string) (api_secret token : option string) : t :=
  {| uri := PyStr.rstrip_slash uri; api_secret := api_secret; token := token |}.

(** self.transactions and self.sessions: the instance has no attribute
    of that name, the lookup ends at the class attribute. *)
Definition self_transactions (self : t) (w : World) : gmap string Queue :=
  transactions w.
Definition self_sessions (self : t) (w : World) : gmap Z JanusSession.t :=
  sessions w.

(** The local variable [message] of [send] (the caller's dict, changed
    in place) next to the world. *)
Record Frame : Type := { message : pydict; world : World }.

Definition in_world {A} (c : Py World A) : Py Frame A :=
  λ fr, let (o, w) := c (world fr) in (o, {| message := message fr; world := w |}).

(** message[k] = v *)
Definition setitem (k : string) (v : json) : Py Frame unit :=
  modify (λ fr, {| message := Dict.set k v (message fr); world := world fr |}).

(** message.name: a dict has no such attribute. *)
Definition getattr (name : string) : Py Frame json :=
  raise (AttributeError ("'dict' object has no attribute '" +:+ name +:+ "'")).

Definition must_set_janus : string :=
  "Must set " +:+ Json.quote +:+ "janus" +:+ Json.quote +:+ " field".

(** Lines 66-73 *)
Definition sanitize_message (self : t) : Py Frame unit :=
  fr ← get_state;
  if negb (Dict.contains "janus" (message fr)) then raise (Exception must_set_janus)
  else
    match Dict.get "transaction" (message fr) with
    | Some v =>
        in_world (logger WARNING
                    ("Should not set transaction (" +:+ PyRepr.str v +:+ "). Overriding."))
    | None => mret tt
    end.

(** if x: for an optional int. *)
Definition truthy (x : option Z) : bool :=
  match x with
  | Some z => negb (z =? 0)
  | None => false
  end.

(** Lines 75-84 *)
Definition build_uri (self : t) (session_id handle_id : option Z) : string :=
  let uri0 := uri self in
  if truthy session_id then
    let uri1 := uri0 +:+ "/" +:+ PyStr.of_Z (default 0 session_id) in
    if truthy handle_id then uri1 +:+ "/" +:+ PyStr.of_Z (default 0 handle_id)
    else uri1
  else uri0.

(** Lines 124-132, the two [async with] of [send]: a GET of the URI,
    which carries nothing of the message, then the three prints. *)
Definition get_and_print (u : string) : Py World unit :=
  w ← get_state;
  modify (add_requested u);;
  match http w u with
  | Fails e => raise e
  | Responds r =>
      print ("Status: " +:+ PyStr.of_Z (status r));;
      ct ← of_option (KeyError (JStr "content-type")) (content_type r);
      print ("Content-type: " +:+ ct);;
      html ← (match text r with inl e => raise e | inr s => mret s end);
      print ("Body: " +:+ PyStr.take 15 html +:+ " ...")
  end.

(** The key of self.transactions[key]. *)
Definition key_of (key : json) : Py World string :=
  match key with
  | JStr s => mret s
  | JList _ => raise (TypeError "unhashable type: 'list'")
  | JDict _ => raise (TypeError "unhashable type: 'dict'")
  | _ => raise (KeyError key)
  end.

(** await self.transactions[key].get(): on an empty queue the call
    waits for an item; [receive] puts none and nothing else does. *)
Definition transactions_get (key : json) : Py World json :=
  k ← key_of key;
  w ← get_state;
  match transactions w !! k with
  | Some (item :: rest) => modify (set_transactions (<[k := rest]>));; mret item
  | Some [] => suspend
  | None => raise (KeyError key)
  end.

(** del self.transactions[key] *)
Definition transactions_delitem (key : json) : Py World unit :=
  k ← key_of key;
  w ← get_state;
  match transactions w !! k with
  | Some _ => modify (set_transactions (delete k))
  | None => raise (KeyError key)
  end.

(** Lines 110-113, "Create transaction": a slot under a new id, the
    id written in the message. *)
Definition create_transaction : Py Frame string :=
  transaction_id ← in_world uuid4;
  in_world (modify (set_transactions (<[transaction_id := Queue_new]>)));;
  setitem "transaction" (JStr transaction_id);;
  mret transaction_id.

(** Lines 115-119, "Authentication" *)
Definition authentication (self : t) : Py Frame unit :=
  (match api_secret self with
   | Some s => setitem "api_secret" (JStr s)
   | None => mret tt
   end);;
  match token self with
  | Some s => setitem "token" (JStr s)
  | None => mret tt
  end.

(** Lines 121-132, "Send the message" *)
Definition send_the_message (self : t) (session_id handle_id : option Z) : Py Frame unit :=
  fr ← get_state;
  let message_json := Json.dumps (JDict (message fr)) in
  in_world (logger INFO ("Send: " +:+ message_json));;
  in_world (get_and_print (build_uri self session_id handle_id)).

(** Lines 134-142, "Wait for response", then "Transaction complete,
    delete it". [message] is a dict: message.transaction is an
    attribute access. *)
Definition wait_for_response : Py Frame json :=
  key ← getattr "transaction";
  response ← in_world (transactions_get key);
  in_world (logger INFO ("Transaction response: " +:+ PyRepr.str response));;
  key' ← getattr "transaction";
  in_world (transactions_delitem key');;
  mret response.

(** Lines 97-142 *)
Definition send_frame (self : t) (session_id handle_id : option Z) : Py Frame json :=
  sanitize_message self;;
  create_transaction;;
  authentication self;;
  send_the_message self session_id handle_id;;
  wait_for_response.

(** send(message, session_id, handle_id) in the world [w]: how the
    call ends, the caller's dict after it, the world after it. *)
Definition send (self : t) (message : pydict) (session_id handle_id : option Z)
    (w : World) : Outcome json * pydict * World :=
  let (o, fr) := send_frame self session_id handle_id {| message := message; world := w |} in
  (o, JanusTransportHTTP.message fr, world fr).

(** Lines 144-145: pass *)
Definition receive (self : t) : Py World unit := mret tt.

End JanusTransportHTTP.

(** ** What a reply to "create" carries *)

(** The identifier field of a reply: the "id" of its "data", when the
    reply and its "data" are dicts that have them. *)
Definition identifier_field (response : json) : option json :=
  match response with
  | JDict d =>
      match Dict.get "data" d with
      | Some (JDict data) => Dict.get "id" data
      | _ => None
      end
  | _ => None
  end.

(** ** Stages of a call of send, as the statements below name them *)

(** The id that the next uuid.uuid4().hex gives. *)
Definition next_uuid (w : World) : string := uuid4_hex w (uuid4_calls w).

Module SendStages.
Import JanusTransportHTTP.

(** The message after "Authentication". *)
Definition with_credentials (self : t) (m : pydict) : pydict :=
  let m1 := match api_secret self with
            | Some s => Dict.set "api_secret" (JStr s) m
            | None => m
            end in
  match token self with
  | Some s => Dict.set "token" (JStr s) m1
  | None => m1
  end.

(** The message after "Create transaction" and "Authentication". *)
Definition outgoing (self : t) (transaction_id : string) (m : pydict) : pydict :=
  with_credentials self (Dict.set "transaction" (JStr transaction_id) m).

Definition warning_of (v : json) : LogRecord :=
  {| levelname := WARNING;
     msg := "Should not set transaction (" +:+ PyRepr.str v +:+ "). Overriding." |}.

Definition send_record (m : pydict) : LogRecord :=
  {| levelname := INFO; msg := "Send: " +:+ Json.dumps (JDict m) |}.

(** The records of one accepted call, up to the GET. *)
Definition records (self : t) (m : pydict) (w : World) : list LogRecord :=
  match Dict.get "transaction" m with
  | Some v => [warning_of v]
  | None => []
  end ++ [send_record (outgoing self (next_uuid w) m)].

(** The world when the GET starts. *)
Definition at_transmission (self : t) (m : pydict) (w : World) : World :=
  {| transactions := <[next_uuid w := Queue_new]> (transactions w);
     sessions := sessions w;
     uuid4_hex := uuid4_hex w; uuid4_calls := Datatypes.S (uuid4_calls w);
     http := http w;
     log := log w ++ records self m w;
     stdout := stdout w; requested := requested w |}.

Definition no_attribute : PyExc :=
  AttributeError "'dict' object has no attribute 'transaction'".

End SendStages.

(** ** Calls of send one after the other *)

Module Calls.
Import JanusTransportHTTP.

Record Call : Type :=
  { target : t;
    call_message : pydict;
    call_session_id : option Z;
    call_handle_id : option Z }.

(** Each call runs in the world the one before left; the result is
    the messages as the calls left them, and the last world. *)
Fixpoint send_each (calls : list Call) (w : World) : list pydict * World :=
  match calls with
  | [] => ([], w)
  | c :: rest =>
      let '(_, m', w1) :=
        send (target c) (call_message c) (call_session_id c) (call_handle_id c) w in
      let (ms, w2) := send_each rest w1 in
      (m' :: ms, w2)
  end.

Definition accepted (c : Call) : Prop :=
  Dict.contains "janus" (call_message c) = true.

End Calls.

(** ** A gateway that answers every GET, for the examples *)

Module Scenario.
Import JanusTransportHTTP.

Definition ack : HttpResponse :=
  {| status := 200;
     content_type := Some "application/json";
     text := inr (Json.dumps (JDict [("janus", JStr "ack")])) |}.

Definition world0 : World :=
  {| transactions := ∅;
     sessions := ∅;
     uuid4_hex := λ n, match n with
                       | 0%nat => "3f2b8c1e9d4a4f6b8e7c5a1d2b3c4d5e"
                       | 1%nat => "a8d1f0c27e6b4b19a3c4d5e6f7a8b9c0"
                       | 2%nat => "5e0c9a7713f24d8d9b6a2f4c8e1d3b7a"
                       | _ => "0b6f3d2a9c8e4f1786a5d4c3b2a1f0e9"
                       end;
     uuid4_calls := 0;
     http := λ _, Responds ack;
     log := [];
     stdout := [];
     requested := [] |}.

Definition open_gateway : t := init "http://localhost:8088/janus/" None None.

Definition other_gateway : t := init "http://10.0.0.7:8088/janus" None None.

Definition secured_gateway : t :=
  init "https://janus.example.org/janus" (Some "janusrocks") (Some "a1b2c3d4").

Definition keepalive : pydict := [("janus", JStr "keepalive")].

Definition session42 : JanusSession.t := {| JanusSession.id := 42 |}.

(** A reading of decimal literals, to run create_session with. *)
Definition decimal (s : string) : option Z := Z.of_int <$> NilZero.int_of_string s.

(** A [send] whose reply to "create" has no identifier. *)
Definition send_no_id (m : JanusMessage) : Py World json :=
  mret (JDict [("janus", JStr "success")]).

(** A [send] whose reply to "create" carries the identifier 42. *)
Definition send_with_id (m : JanusMessage) : Py World json :=
  mret (JDict [("janus", JStr "success"); ("data", JDict [("id", JInt 42)])]).

Definition info_with_transaction : pydict :=
  [("janus", JStr "info"); ("transaction", JStr "mine")].

Definition later_calls : list Calls.Call :=
  [ {| Calls.target := secured_gateway; Calls.call_message := keepalive;
       Calls.call_session_id := Some 12; Calls.call_handle_id := None |};
    {| Calls.target := open_gateway; Calls.call_message := info_with_transaction;
       Calls.call_session_id := None; Calls.call_handle_id := None |} ].

(** A world with session 42 registered. *)
Definition world42 : World := set_sessions (<[42 := session42]>) world0.

End Scenario.

(** ** The rest of the transport *)

(** A run of [n] slashes. *)
Fixpoint slashes (n : nat) : string :=
  match n with
  | O => EmptyString
  | Datatypes.S n' => String "/" (slashes n')
  end.

(** Line 40: self.sessions[session_id] = session *)
Definition sessions_setitem (session_id : Z) (session : JanusSession.t) : Py World unit :=
  modify (set_sessions (<[session_id := session]>)).

(** "janus" in message, for the message of a call. *)
Definition is_accepted (c : Calls.Call) : bool :=
  Dict.contains "janus" (Calls.call_message c).

(** The URI that a call asks for. *)
Definition uri_of_call (c : Calls.Call) : string :=
  JanusTransportHTTP.build_uri (Calls.target c) (Calls.call_session_id c)
    (Calls.call_handle_id c).

(** The keys that send writes in the message, in the order of the
    assignments (lines 113, 117 and 119). *)
Definition sent_keys (self : JanusTransportHTTP.t) : list string :=
  ["transaction"]
  ++ match JanusTransportHTTP.api_secret self with Some _ => ["api_secret"] | None => [] end
  ++ match JanusTransportHTTP.token self with Some _ => ["token"] | None => [] end.

Module Info.
Section Decode.
Import JanusTransportHTTP.

(** await response.json(): aiohttp's reading of the body as JSON, or
    the error it raises. *)
Variable response_json : HttpResponse → PyExc + json.

(** Lines 86-95: a GET of <uri>/info, the three prints, then the body
    as JSON. *)
Definition info (self : t) : Py World json :=
  let u := uri self +:+ "/info" in
  w ← get_state;
  modify (add_requested u);;
  match http w u with
  | Fails e => raise e
  | Responds r =>
      print ("Status: " +:+ PyStr.of_Z (status r));;
      ct ← of_option (KeyError (JStr "content-type")) (content_type r);
      print ("Content-type: " +:+ ct);;
      html ← (match text r with inl e => raise e | inr s => mret s end);
      print ("Body: " +:+ PyStr.take 15 html +:+ " ...");;
      match response_json r with
      | inl e => raise e
      | inr v => mret v
      end
  end.

End Decode.
End Info.

Module Outage.
Import JanusTransportHTTP.

(** A gateway that cannot be reached. *)
Definition unreachable : World :=
  {| transactions := ∅; sessions := ∅;
     uuid4_hex := uuid4_hex Scenario.world0; uuid4_calls := 0;
     http := λ _, Fails (ClientError "Cannot connect to host localhost:8088");
     log := []; stdout := []; requested := [] |}.

(** A gateway whose replies have no content-type header. *)
Definition bare_reply : HttpResponse :=
  {| status := 204; content_type := None; text := inr EmptyString |}.

Definition headerless : World :=
  {| transactions := ∅; sessions := ∅;
     uuid4_hex := uuid4_hex Scenario.world0; uuid4_calls := 0;
     http := λ _, Responds bare_reply;
     log := []; stdout := []; requested := [] |}.

(** A reading of every body as the same server description. *)
Definition server_info : json :=
  JDict [("janus", JStr "server_info"); ("version", JInt 1200)].

Definition read_server_info (r : HttpResponse) : PyExc + json := inr server_info.

Definition session7 : JanusSession.t := {| JanusSession.id := 7 |}.

(** Sessions 7 and 42 registered under their ids. *)
Definition two_sessions : World :=
  set_sessions (<[7 := session7]>) Scenario.world42.

(** Two accepted calls around one without "janus". *)
Definition mixed_calls : list Calls.Call :=
  [ {| Calls.target := Scenario.open_gateway; Calls.call_message := Scenario.keepalive;
       Calls.call_session_id := Some 12; Calls.call_handle_id := None |};
    {| Calls.target := Scenario.open_gateway;
       Calls.call_message := [("body", JDict [])];
       Calls.call_session_id := Some 12; Calls.call_handle_id := Some 7 |};
    {| Calls.target := Scenario.secured_gateway;
       Calls.call_message := Scenario.info_with_transaction;
       Calls.call_session_id := Some 12; Calls.call_handle_id := Some 7 |} ].

End Outage.

(** * Properties *)

(** ** The model on small inputs *)

Example init_strips_slashes :
  JanusTransportHTTP.uri (JanusTransportHTTP.init "http://localhost:8088/janus//" None None)
  = "http://localhost:8088/janus".
Proof. reflexivity. Qed.

Example build_uri_session_and_handle :
  JanusTransportHTTP.build_uri Scenario.open_gateway (Some 12) (Some 7)
  = "http://localhost:8088/janus/12/7".
Proof. reflexivity. Qed.

Example build_uri_handle_without_session :
  JanusTransportHTTP.build_uri Scenario.open_gateway None (Some 7)
  = "http://localhost:8088/janus".
Proof. reflexivity. Qed.

Example dumps_keepalive :
  Json.dumps (JDict Scenario.keepalive)
  = "{" +:+ Json.quote +:+ "janus" +:+ Json.quote +:+ ": "
        +:+ Json.quote +:+ "keepalive" +:+ Json.quote +:+ "}".
Proof. reflexivity. Qed.

Example send_requests_the_uri :
  requested (JanusTransportHTTP.send Scenario.open_gateway Scenario.keepalive
               (Some 12) None Scenario.world0).2
  = ["http://localhost:8088/janus/12"].
Proof. reflexivity. Qed.

Example send_prints :
  stdout (JanusTransportHTTP.send Scenario.open_gateway Scenario.keepalive
            None None Scenario.world0).2
  = ["Status: 200"; "Content-type: application/json";
     "Body: " +:+ PyStr.take 15 (Json.dumps (JDict [("janus", JStr "ack")])) +:+ " ..."].
Proof. reflexivity. Qed.

(** ** Strings and dictionaries *)

Lemma append_cons (x : ascii) (a b : string) : String x a +:+ b = String x (a +:+ b).
Proof. reflexivity. Qed.

Lemma append_nil_r (a : string) : a +:+ EmptyString = a.
Proof. induction a as [|x a IH]; [reflexivity | now rewrite append_cons, IH]. Qed.

Lemma append_assoc (a b c : string) : (a +:+ b) +:+ c = a +:+ (b +:+ c).
Proof. induction a as [|x a IH]; [reflexivity | now rewrite !append_cons, IH]. Qed.

Lemma occurs_in_refl (s : string) : PyStr.occurs_in s s.
Proof.
  exists EmptyString, EmptyString. now rewrite append_nil_r.
Qed.

Lemma occurs_in_append (t s a b : string) :
  PyStr.occurs_in t s → PyStr.occurs_in t (a +:+ s +:+ b).
Proof.
  intros (p & q & ->). exists (a +:+ p), (q +:+ b).
  now rewrite !append_assoc.
Qed.

Lemma occurs_in_trans (t s u : string) :
  PyStr.occurs_in t s → PyStr.occurs_in s u → PyStr.occurs_in t u.
Proof. intros H (p & q & ->). now apply occurs_in_append. Qed.

Lemma get_set_eq (k : string) (v : json) (d : pydict) :
  Dict.get k (Dict.set k v d) = Some v.
Proof.
  induction d as [|[k' v'] d IH]; simpl.
  - now rewrite String.eqb_refl.
  - destruct (String.eqb k k') eqn:E; simpl; rewrite E; [reflexivity | exact IH].
Qed.

Lemma get_set_ne (k k' : string) (v : json) (d : pydict) :
  k ≠ k' → Dict.get k' (Dict.set k v d) = Dict.get k' d.
Proof.
  intros Hne. induction d as [|[k0 v0] d IH]; simpl.
  - apply String.eqb_neq in Hne. rewrite String.eqb_sym in Hne. now rewrite Hne.
  - destruct (String.eqb k k0) eqn:E; simpl.
    + apply String.eqb_eq in E. subst k0.
      assert (String.eqb k' k = false) as -> by (apply String.eqb_neq; congruence).
      reflexivity.
    + destruct (String.eqb k' k0); [reflexivity | exact IH].
Qed.

Lemma keys_set (k : string) (v : json) (d : pydict) (x : string) :
  is_Some (Dict.get x (Dict.set k v d)) ↔ x = k ∨ is_Some (Dict.get x d).
Proof.
  destruct (decide (k = x)) as [->|Hne].
  - rewrite get_set_eq. split; [now left | now eexists].
  - rewrite get_set_ne by exact Hne. split; [now right | intros [?|?]; congruence || done].
Qed.

(** A field of a dict shows in its JSON text, as "key": value. *)
Lemma dumps_field (k : string) (v : json) (d : pydict) :
  Dict.get k d = Some v →
  PyStr.occurs_in (Json.dumps_str k +:+ ": " +:+ Json.dumps v) (Json.dumps (JDict d)).
Proof.
  intros H. simpl.
  apply (occurs_in_append _ _ "{" "}").
  induction d as [|[k' v'] d IH]; simpl in *; [discriminate|].
  destruct (String.eqb k k') eqn:E.
  - apply String.eqb_eq in E. subst k'. injection H as ->.
    destruct d as [|kv d].
    + simpl. apply occurs_in_refl.
    + exists EmptyString. eexists. simpl. rewrite !append_assoc. reflexivity.
  - specialize (IH H). destruct d as [|kv d]; [discriminate|].
    destruct IH as (p & q & Hpq).
    eexists ((Json.dumps_str k' +:+ ": " +:+ Json.dumps v') +:+ ", " +:+ p), q.
    cbn [String.concat map fst snd]. cbn [String.concat map fst snd] in Hpq.
    rewrite Hpq. now rewrite !append_assoc.
Qed.

Lemma prefix_append (t s : string) :
  String.prefix t s = true → ∃ rest, s = t +:+ rest.
Proof.
  revert s. induction t as [|c t IH]; intros s H.
  - now exists s.
  - destruct s as [|c' s]; simpl in H; [discriminate|].
    destruct (ascii_dec c c') as [->|]; [|discriminate].
    destruct (IH _ H) as [rest ->]. now exists rest.
Qed.

Lemma occurs_inb_sound (t s : string) :
  PyStr.occurs_inb t s = true → PyStr.occurs_in t s.
Proof.
  induction s as [|c s IH]; cbn [PyStr.occurs_inb]; intros H.
  - rewrite orb_false_r in H. destruct (prefix_append _ _ H) as [rest ->].
    now exists EmptyString, rest.
  - apply orb_true_iff in H as [H|H].
    + destruct (prefix_append _ _ H) as [rest Hr]. exists EmptyString, rest. exact Hr.
    + destruct (IH H) as (p & q & ->). now exists (String c p), q.
Qed.

Lemma escape_plain (s : string) : PyStr.plain s = true → Json.escape s = s.
Proof.
  induction s as [|c s IH]; simpl; [reflexivity|].
  intros [Hc Hs]%andb_true_iff. rewrite (IH Hs).
  unfold PyStr.plain_char in Hc. unfold Json.escape_char.
  destruct (N_of_ascii c =? 34)%N eqn:E1; [now rewrite !andb_false_r in Hc|].
  destruct (N_of_ascii c =? 92)%N eqn:E2; [now rewrite !andb_false_r in Hc|].
  rewrite !andb_true_r in Hc. apply andb_true_iff in Hc as [H1 H2].
  apply N.leb_le in H1. 
  destruct (N_of_ascii c =? 8)%N eqn:E3; [apply N.eqb_eq in E3; lia|].
  destruct (N_of_ascii c =? 12)%N eqn:E4; [apply N.eqb_eq in E4; lia|].
  destruct (N_of_ascii c =? 10)%N eqn:E5; [apply N.eqb_eq in E5; lia|].
  destruct (N_of_ascii c =? 13)%N eqn:E6; [apply N.eqb_eq in E6; lia|].
  destruct (N_of_ascii c =? 9)%N eqn:E7; [apply N.eqb_eq in E7; lia|].
  apply N.leb_le in H1. rewrite H1, H2. reflexivity.
Qed.

(** ** The monad and the blocks of send *)

Import JanusTransportHTTP SendStages.

Ltac py_unfold :=
  unfold mbind, mret, Py_MBind, Py_MRet, Py_bind, Py_ret, raise, suspend,
    get_state, modify, of_option, lift, in_world, setitem, getattr, logger, print,
    uuid4, add_stdout, add_requested, add_log, set_transactions, set_sessions,
    count_uuid4 in *.

Lemma bind_run {S A B} (c : Py S A) (f : A → Py S B) (s : S) :
  (c ≫= f) s = match c s with
               | (Returned a, s') => f a s'
               | (Raised e, s') => (Raised e, s')
               | (Pending, s') => (Pending, s')
               end.
Proof. reflexivity. Qed.

Lemma get_and_print_cases u w :
  ∃ o w', get_and_print u w = (o, w')
   ∧ transactions w' = transactions w ∧ sessions w' = sessions w
   ∧ uuid4_hex w' = uuid4_hex w ∧ uuid4_calls w' = uuid4_calls w
   ∧ http w' = http w ∧ log w' = log w ∧ requested w' = requested w ++ [u]
   ∧ o = match http w u with
         | Fails e => Raised e
         | Responds r =>
             match content_type r, text r with
             | None, _ => Raised (KeyError (JStr "content-type"))
             | Some _, inl e => Raised e
             | Some _, inr _ => Returned tt
             end
         end.
Proof.
  unfold get_and_print. py_unfold.
  destruct (http w u) as [e|r];
    [| destruct (content_type r) as [ct|]; [destruct (text r) as [e|body] |]];
    (eexists _, _; split; [reflexivity | repeat split]).
Qed.

Lemma sanitize_accepts self m w :
  Dict.contains "janus" m = true →
  sanitize_message self {| message := m; world := w |} =
    (Returned tt,
     {| message := m;
        world := match Dict.get "transaction" m with
                 | Some v => add_log (warning_of v) w
                 | None => w
                 end |}).
Proof.
  intros H. unfold sanitize_message. py_unfold. cbn [message world]. rewrite H.
  cbn [negb]. destruct (Dict.get "transaction" m); reflexivity.
Qed.

Lemma create_transaction_run m w :
  create_transaction {| message := m; world := w |} =
    (Returned (next_uuid w),
     {| message := Dict.set "transaction" (JStr (next_uuid w)) m;
        world := set_transactions (<[next_uuid w := Queue_new]>) (count_uuid4 w) |}).
Proof. reflexivity. Qed.

Lemma authentication_run self m w :
  authentication self {| message := m; world := w |} =
    (Returned tt, {| message := with_credentials self m; world := w |}).
Proof.
  unfold authentication, with_credentials. py_unfold.
  destruct (api_secret self), (token self); reflexivity.
Qed.

Lemma send_the_message_run self sid hid m w :
  send_the_message self sid hid {| message := m; world := w |} =
    let (o, w') := get_and_print (build_uri self sid hid) (add_log (send_record m) w) in
    (o, {| message := m; world := w' |}).
Proof. reflexivity. Qed.

Lemma wait_for_response_run fr : wait_for_response fr = (Raised no_attribute, fr).
Proof. reflexivity. Qed.

Lemma at_transmission_eq self m w :
  add_log (send_record (outgoing self (next_uuid w) m))
    (set_transactions (<[next_uuid w := Queue_new]>)
       (count_uuid4 (match Dict.get "transaction" m with
                     | Some v => add_log (warning_of v) w
                     | None => w
                     end))) = at_transmission self m w.
Proof.
  unfold at_transmission, records, add_log, set_transactions, count_uuid4, next_uuid.
  destruct (Dict.get "transaction" m); cbn; [now rewrite <- app_assoc | reflexivity].
Qed.

(** A message without "janus": nothing happens but the exception. *)
Lemma send_rejected self message sid hid w :
  Dict.contains "janus" message = false →
  send self message sid hid w = (Raised (Exception must_set_janus), message, w).
Proof.
  intros H. unfold send, send_frame, sanitize_message. py_unfold.
  cbn [JanusTransportHTTP.message world]. rewrite H. reflexivity.
Qed.

(** A message with "janus": the call is the GET, run in the world where
    the slot is registered and the message logged, and it cannot end
    well. *)
Lemma send_accepted self message sid hid w :
  Dict.contains "janus" message = true →
  send self message sid hid w =
    let '(o, w') := get_and_print (build_uri self sid hid) (at_transmission self message w) in
    (match o with
     | Returned _ => Raised no_attribute
     | Raised e => Raised e
     | Pending => Pending
     end, outgoing self (next_uuid w) message, w').
Proof.
  intros H. unfold send, send_frame.
  rewrite bind_run, (sanitize_accepts _ _ _ H).
  rewrite bind_run, create_transaction_run.
  rewrite bind_run, authentication_run.
  rewrite bind_run, send_the_message_run.
  assert (next_uuid (match Dict.get "transaction" message with
                     | Some v => add_log (warning_of v) w
                     | None => w
                     end) = next_uuid w) as ->
    by (destruct (Dict.get "transaction" message); reflexivity).
  fold (outgoing self (next_uuid w) message).
  rewrite at_transmission_eq.
  destruct (get_and_print _ _) as [[r|e|] w']; reflexivity.
Qed.

(** What one accepted call leaves behind. *)
Lemma send_effects self message sid hid w o m' w' :
  send self message sid hid w = (o, m', w') →
  Dict.contains "janus" message = true →
  m' = outgoing self (next_uuid w) message
  ∧ transactions w' = <[next_uuid w := Queue_new]> (transactions w)
  ∧ sessions w' = sessions w
  ∧ uuid4_hex w' = uuid4_hex w
  ∧ uuid4_calls w' = Datatypes.S (uuid4_calls w)
  ∧ log w' = log w ++ records self message w
  ∧ requested w' = requested w ++ [build_uri self sid hid]
  ∧ o = match http w (build_uri self sid hid) with
        | Fails e => Raised e
        | Responds r =>
            match content_type r, text r with
            | None, _ => Raised (KeyError (JStr "content-type"))
            | Some _, inl e => Raised e
            | Some _, inr _ => Raised no_attribute
            end
        end.
Proof.
  intros Hs H. rewrite (send_accepted _ _ _ _ _ H) in Hs.
  destruct (get_and_print_cases (build_uri self sid hid) (at_transmission self message w))
    as (o5 & w5 & E & Ht & Hss & Hu & Hc & Hh & Hl & Hr & Ho).
  rewrite E in Hs. injection Hs as <- <- <-.
  rewrite Ht, Hss, Hu, Hc, Hl, Hr. cbn [at_transmission transactions sessions uuid4_hex uuid4_calls log requested].
  repeat split. rewrite Ho. cbn [at_transmission http].
  destruct (http w _) as [e|r]; [reflexivity|].
  destruct (content_type r); [destruct (text r)|]; reflexivity.
Qed.

(** ** Validation *)

(** C5, as stated, fails: a message without the "janus" key makes send
    raise the built-in Exception; no ValidationError exists in the
    module. *)
Lemma send_without_janus_raises_plain_Exception :
  ∃ e, send Scenario.open_gateway [("transaction", JStr "abc")] None None Scenario.world0
         = (Raised e, [("transaction", JStr "abc")], Scenario.world0)
     ∧ class_name e = "Exception"
     ∧ class_name e ≠ "ValidationError".
Proof. exists (Exception must_set_janus). repeat split. discriminate. Qed.

(** C5 (amended): for every message without the "janus" key, send
    raises Exception('Must set "janus" field') and does nothing else:
    the caller's dict and the whole world, Transaction Table and
    uuid4 count included, are as before the call. *)
Theorem send_without_janus_fails_first self message sid hid w :
  Dict.contains "janus" message = false →
  ∃ e, send self message sid hid w = (Raised e, message, w)
     ∧ e = Exception must_set_janus
     ∧ class_name e = "Exception".
Proof.
  intros H. exists (Exception must_set_janus).
  rewrite (send_rejected _ _ _ _ _ H). repeat split.
Qed.

Lemma send_without_janus_fails_first_witness :
  Dict.contains "janus" [("transaction", JStr "abc")] = false
  ∧ ∃ e, send Scenario.open_gateway [("transaction", JStr "abc")] (Some 7) None Scenario.world0
           = (Raised e, [("transaction", JStr "abc")], Scenario.world0)
       ∧ e = Exception must_set_janus
       ∧ class_name e = "Exception".
Proof.
  split; [reflexivity |].
  apply (send_without_janus_fails_first Scenario.open_gateway
           [("transaction", JStr "abc")] (Some 7) None Scenario.world0).
  reflexivity.
Defined.

(** ** The transaction slot *)

(** C1: the code does not do what the claim says. Once the GET is
    answered, send raises AttributeError at [message.transaction]: no
    reply is consumed, the call never returns, and the slot it
    registered under the new id is still in the Transaction Table;
    receive delivers nothing to any slot. *)
Theorem send_leaves_slot_registered self message sid hid w r ct body :
  Dict.contains "janus" message = true →
  http w (build_uri self sid hid) = Responds r →
  content_type r = Some ct →
  text r = inr body →
  ∃ m' w',
    send self message sid hid w = (Raised no_attribute, m', w')
    ∧ transactions w' = <[next_uuid w := Queue_new]> (transactions w)
    ∧ transactions w' !! next_uuid w = Some Queue_new
    ∧ receive self w' = (Returned tt, w').
Proof.
  intros H Hr Hct Hb.
  destruct (send self message sid hid w) as [[o m'] w'] eqn:E.
  destruct (send_effects _ _ _ _ _ _ _ _ E H) as (_ & Ht & _ & _ & _ & _ & _ & Ho).
  rewrite Hr, Hct, Hb in Ho. subst o.
  exists m', w'. repeat split; [exact Ht |].
  rewrite Ht. apply lookup_insert_eq.
Qed.

Lemma send_leaves_slot_registered_witness :
  Dict.contains "janus" Scenario.keepalive = true
  ∧ http Scenario.world0 (build_uri Scenario.open_gateway (Some 4711) None)
    = Responds Scenario.ack
  ∧ ∃ m' w',
      send Scenario.open_gateway Scenario.keepalive (Some 4711) None Scenario.world0
        = (Raised no_attribute, m', w')
      ∧ transactions w'
        = <[next_uuid Scenario.world0 := Queue_new]> (transactions Scenario.world0)
      ∧ transactions w' !! next_uuid Scenario.world0 = Some Queue_new
      ∧ receive Scenario.open_gateway w' = (Returned tt, w').
Proof.
  split; [reflexivity |]. split; [reflexivity |].
  apply (send_leaves_slot_registered Scenario.open_gateway Scenario.keepalive
           (Some 4711) None Scenario.world0 Scenario.ack "application/json"
           (Json.dumps (JDict [("janus", JStr "ack")])));
    reflexivity.
Defined.

(** C3, as stated, fails: a request that is answered by no reply ends
    with AttributeError, not TimeoutError, and its slot stays in the
    Transaction Table, which has one entry more than before. *)
Lemma send_unanswered_no_TimeoutError :
  let '(o, _, w') :=
    send Scenario.open_gateway Scenario.keepalive None None Scenario.world0 in
  o ≠ Raised TimeoutError
  ∧ transactions w' !! next_uuid Scenario.world0 = Some Queue_new
  ∧ size (transactions Scenario.world0) = 0%nat
  ∧ size (transactions w') = 1%nat.
Proof. vm_compute. repeat split; discriminate. Qed.

(** C3 (amended): send sets no deadline. For every accepted request
    whose GET is answered and that gets no reply, the call neither
    returns nor fails with TimeoutError, and its slot is not removed:
    the Transaction Table is the one before the call plus the new
    slot, one entry more when the id is new. *)
Theorem send_has_no_deadline self message sid hid w o m' w' r body :
  send self message sid hid w = (o, m', w') →
  Dict.contains "janus" message = true →
  http w (build_uri self sid hid) = Responds r →
  text r = inr body →
  o ≠ Raised TimeoutError
  ∧ (∀ x, o ≠ Returned x)
  ∧ transactions w' !! next_uuid w = Some Queue_new
  ∧ (∀ k, k ≠ next_uuid w → transactions w' !! k = transactions w !! k)
  ∧ (transactions w !! next_uuid w = None →
     size (transactions w') = Datatypes.S (size (transactions w))).
Proof.
  intros E H Hr Hb.
  destruct (send_effects _ _ _ _ _ _ _ _ E H) as (_ & Ht & _ & _ & _ & _ & _ & Ho).
  rewrite Hr, Hb in Ho. rewrite Ht.
  split; [| split; [| split; [| split]]].
  - destruct (content_type r); subst o; discriminate.
  - intros x. destruct (content_type r); subst o; discriminate.
  - apply lookup_insert_eq.
  - intros k Hk. now apply lookup_insert_ne.
  - intros Hn. now apply map_size_insert_None.
Qed.

Lemma send_has_no_deadline_witness :
  let w' := (send Scenario.open_gateway Scenario.keepalive None None Scenario.world0).2 in
  let o := (send Scenario.open_gateway Scenario.keepalive None None Scenario.world0).1.1 in
  o ≠ Raised TimeoutError
  ∧ (∀ x, o ≠ Returned x)
  ∧ transactions w' !! next_uuid Scenario.world0 = Some Queue_new
  ∧ (∀ k, k ≠ next_uuid Scenario.world0 →
          transactions w' !! k = transactions Scenario.world0 !! k)
  ∧ (transactions Scenario.world0 !! next_uuid Scenario.world0 = None →
     size (transactions w') = Datatypes.S (size (transactions Scenario.world0))).
Proof.
  apply (send_has_no_deadline Scenario.open_gateway Scenario.keepalive None None
           Scenario.world0 _
           (send Scenario.open_gateway Scenario.keepalive None None Scenario.world0).1.2
           _ Scenario.ack (Json.dumps (JDict [("janus", JStr "ack")])));
    reflexivity.
Defined.

(** ** The outgoing message *)

Lemma outgoing_transaction self tid m :
  Dict.get "transaction" (outgoing self tid m) = Some (JStr tid).
Proof.
  unfold outgoing, with_credentials.
  destruct (api_secret self), (token self);
    rewrite ?get_set_ne by discriminate; apply get_set_eq.
Qed.

Lemma outgoing_api_secret self tid m :
  Dict.get "api_secret" (outgoing self tid m) =
    match api_secret self with
    | Some s => Some (JStr s)
    | None => Dict.get "api_secret" m
    end.
Proof.
  unfold outgoing, with_credentials.
  destruct (api_secret self), (token self);
    rewrite ?(get_set_ne "token") by discriminate;
    rewrite ?get_set_eq; try reflexivity;
    now rewrite get_set_ne by discriminate.
Qed.

Lemma outgoing_token self tid m :
  Dict.get "token" (outgoing self tid m) =
    match token self with
    | Some s => Some (JStr s)
    | None => Dict.get "token" m
    end.
Proof.
  unfold outgoing, with_credentials.
  destruct (api_secret self), (token self);
    rewrite ?get_set_eq; try reflexivity;
    now rewrite !get_set_ne by discriminate.
Qed.

Lemma outgoing_other self tid m k :
  k ≠ "transaction" → k ≠ "api_secret" → k ≠ "token" →
  Dict.get k (outgoing self tid m) = Dict.get k m.
Proof.
  intros H1 H2 H3. unfold outgoing, with_credentials.
  destruct (api_secret self), (token self);
    now rewrite !get_set_ne by congruence.
Qed.

Lemma send_each_transactions calls : ∀ w,
  Forall Calls.accepted calls →
  Dict.get "transaction" <$> (Calls.send_each calls w).1
    = (λ i, Some (JStr (uuid4_hex w i))) <$> seq (uuid4_calls w) (length calls).
Proof.
  induction calls as [|c calls IH]; intros w Hall; [reflexivity|].
  apply Forall_cons in Hall as [Hc Hall].
  cbn [Calls.send_each].
  destruct (send _ _ _ _ w) as [[o m'] w1] eqn:E.
  destruct (send_effects _ _ _ _ _ _ _ _ E Hc) as (-> & _ & _ & Hu & Hn & _).
  specialize (IH w1 Hall).
  destruct (Calls.send_each calls w1) as [ms w2]. cbn [fst] in *.
  cbn [length seq fmap list_fmap]. rewrite outgoing_transaction. f_equal.
  change (list_fmap _ _ ?f ?l) with (f <$> l). rewrite IH, Hu, Hn. reflexivity.
Qed.

(** C2: for every message that send accepts, the transaction field of
    the outgoing message is the value uuid.uuid4().hex gave to this
    call, whatever the caller had put there; a caller's own value only
    adds one warning record before the "Send" record; each call takes
    the next value of uuid4, so the ids of this call and of the calls
    after it are pairwise different wherever the values of uuid4 are. *)
Theorem send_assigns_transaction self message sid hid w o m' w' :
  send self message sid hid w = (o, m', w') →
  Dict.contains "janus" message = true →
  Dict.get "transaction" m' = Some (JStr (next_uuid w))
  ∧ log w' = log w
             ++ match Dict.get "transaction" message with
                | Some v => [warning_of v]
                | None => []
                end
             ++ [send_record m']
  ∧ transactions w' !! next_uuid w = Some Queue_new
  ∧ (Dict.get "transaction" message ≠ Some (JStr (next_uuid w)) →
     Dict.get "transaction" m' ≠ Dict.get "transaction" message)
  ∧ next_uuid w' = uuid4_hex w (Datatypes.S (uuid4_calls w))
  ∧ (∀ calls,
       Forall Calls.accepted calls →
       NoDup (uuid4_hex w <$> seq (uuid4_calls w) (Datatypes.S (length calls))) →
       NoDup (Dict.get "transaction" <$> m' :: (Calls.send_each calls w').1)).
Proof.
  intros E H.
  destruct (send_effects _ _ _ _ _ _ _ _ E H) as (-> & Ht & _ & Hu & Hn & Hl & _).
  rewrite outgoing_transaction.
  split; [reflexivity |]. split; [exact Hl |].
  split; [rewrite Ht; apply lookup_insert_eq |].
  split; [congruence |].
  split; [unfold next_uuid; now rewrite Hu, Hn |].
  intros calls Hall Hnd.
  cbn [fmap list_fmap]. change (list_fmap _ _ ?f ?l) with (f <$> l).
  rewrite outgoing_transaction, (send_each_transactions calls w' Hall), Hu, Hn.
  change (NoDup ((λ i, Some (JStr (uuid4_hex w i)))
                   <$> seq (uuid4_calls w) (Datatypes.S (length calls)))).
  rewrite (list_fmap_compose (uuid4_hex w) (λ x, Some (JStr x))).
  apply NoDup_fmap_2; [| exact Hnd].
  intros x y [= ->]. reflexivity.
Qed.

(** ** Credentials *)

(** C8: for every message that send accepts, a configured api_secret
    or token is a top-level field of the outgoing message, with the
    configured value unchanged; a credential that is not configured
    leaves its field as the caller gave it (absent if it was absent);
    the GET is made after the message has its credentials. *)
Theorem send_attaches_credentials self message sid hid w o m' w' :
  send self message sid hid w = (o, m', w') →
  Dict.contains "janus" message = true →
  (∀ s, api_secret self = Some s → Dict.get "api_secret" m' = Some (JStr s))
  ∧ (∀ s, token self = Some s → Dict.get "token" m' = Some (JStr s))
  ∧ (api_secret self = None → Dict.get "api_secret" m' = Dict.get "api_secret" message)
  ∧ (token self = None → Dict.get "token" m' = Dict.get "token" message)
  ∧ (∀ k, k ≠ "transaction" → k ≠ "api_secret" → k ≠ "token" →
          Dict.get k m' = Dict.get k message)
  ∧ last (log (at_transmission self message w)) = Some (send_record m')
  ∧ ∃ o5, get_and_print (build_uri self sid hid) (at_transmission self message w) = (o5, w').
Proof.
  intros E H.
  destruct (send_effects _ _ _ _ _ _ _ _ E H) as (Hm & _).
  rewrite (send_accepted _ _ _ _ _ H) in E.
  destruct (get_and_print _ _) as [o5 w5] eqn:E5. injection E as _ _ <-.
  subst m'. rewrite outgoing_api_secret, outgoing_token.
  repeat split.
  - now intros s ->.
  - now intros s ->.
  - now intros ->.
  - now intros ->.
  - intros k H1 H2 H3. now apply outgoing_other.
  - cbn [at_transmission log]. unfold records. rewrite app_assoc. apply last_snoc.
  - now exists o5.
Qed.

(** C9, as stated, fails: with credentials configured, the record
    "Send: ..." that send logs has both credential values in it. *)
Lemma send_logs_the_credentials :
  ∃ r, log (send Scenario.secured_gateway Scenario.keepalive None None Scenario.world0).2 = [r]
     ∧ levelname r = INFO
     ∧ PyStr.occurs_in "janusrocks" (msg r)
     ∧ PyStr.occurs_in "a1b2c3d4" (msg r).
Proof.
  eexists. split; [vm_compute; reflexivity |].
  split; [reflexivity |].
  split; apply occurs_inb_sound; vm_compute; reflexivity.
Qed.

(** C9 (amended): every accepted call of send logs, at level INFO, the
    record "Send: " followed by the JSON text of the outgoing message;
    each configured credential is in that text as a field with its
    JSON-encoded value, and a value of plain printable characters is
    there as it is. *)
Theorem send_record_shows_credentials self message sid hid w o m' w' :
  send self message sid hid w = (o, m', w') →
  Dict.contains "janus" message = true →
  ∃ r, r ∈ log w'
     ∧ levelname r = INFO
     ∧ msg r = "Send: " +:+ Json.dumps (JDict m')
     ∧ (∀ s, api_secret self = Some s →
          PyStr.occurs_in (Json.dumps_str "api_secret" +:+ ": " +:+ Json.dumps_str s) (msg r)
          ∧ (PyStr.plain s = true → PyStr.occurs_in s (msg r)))
     ∧ (∀ s, token self = Some s →
          PyStr.occurs_in (Json.dumps_str "token" +:+ ": " +:+ Json.dumps_str s) (msg r)
          ∧ (PyStr.plain s = true → PyStr.occurs_in s (msg r))).
Proof.
  intros E H.
  destruct (send_effects _ _ _ _ _ _ _ _ E H) as (Hm & _ & _ & _ & _ & Hl & _).
  assert (Hfield : ∀ k s, Dict.get k m' = Some (JStr s) →
            PyStr.occurs_in (Json.dumps_str k +:+ ": " +:+ Json.dumps_str s)
              ("Send: " +:+ Json.dumps (JDict m'))
            ∧ (PyStr.plain s = true →
               PyStr.occurs_in s ("Send: " +:+ Json.dumps (JDict m')))).
  { intros k s Hk.
    assert (PyStr.occurs_in (Json.dumps_str k +:+ ": " +:+ Json.dumps_str s)
              ("Send: " +:+ Json.dumps (JDict m'))) as Hin.
    { pose proof (occurs_in_append _ _ "Send: " EmptyString (dumps_field k _ _ Hk)) as Hd.
      now rewrite append_nil_r in Hd. }
    split; [exact Hin |].
    intros Hp. eapply occurs_in_trans; [| exact Hin].
    exists (Json.dumps_str k +:+ ": " +:+ Json.quote), Json.quote.
    unfold Json.dumps_str. rewrite (escape_plain _ Hp). now rewrite !append_assoc. }
  exists (send_record m'). split.
  - rewrite Hl. unfold records. rewrite Hm.
    apply elem_of_app. right. apply elem_of_app. right.
    now apply list_elem_of_singleton.
  - split; [reflexivity |]. split; [reflexivity |]. cbn [send_record msg]. split.
    + intros s Hs. apply Hfield. subst m'. now rewrite outgoing_api_secret, Hs.
    + intros s Hs. apply Hfield. subst m'. now rewrite outgoing_token, Hs.
Qed.

Lemma send_assigns_transaction_witness :
  let call := send Scenario.secured_gateway Scenario.info_with_transaction
                (Some 12) (Some 7) Scenario.world0 in
  Dict.contains "janus" Scenario.info_with_transaction = true
  ∧ Dict.get "transaction" Scenario.info_with_transaction = Some (JStr "mine")
  ∧ Dict.get "transaction" call.1.2 = Some (JStr "3f2b8c1e9d4a4f6b8e7c5a1d2b3c4d5e")
  ∧ log call.2 = [warning_of (JStr "mine"); send_record call.1.2]
  ∧ NoDup (Dict.get "transaction"
             <$> call.1.2 :: (Calls.send_each Scenario.later_calls call.2).1).
Proof.
  intros call.
  destruct (send_assigns_transaction Scenario.secured_gateway
              Scenario.info_with_transaction (Some 12) (Some 7) Scenario.world0
              call.1.1 call.1.2 call.2 eq_refl eq_refl)
    as (H1 & H2 & _ & _ & _ & H6).
  split; [reflexivity |]. split; [reflexivity |].
  split; [exact H1 |]. split; [exact H2 |].
  apply H6.
  - repeat constructor.
  - apply (bool_decide_unpack _). vm_compute. exact I.
Defined.

Lemma send_attaches_credentials_witness :
  let call := send Scenario.secured_gateway Scenario.keepalive None None Scenario.world0 in
  let bare := send Scenario.open_gateway Scenario.keepalive None None Scenario.world0 in
  Dict.contains "janus" Scenario.keepalive = true
  ∧ Dict.get "api_secret" call.1.2 = Some (JStr "janusrocks")
  ∧ Dict.get "token" call.1.2 = Some (JStr "a1b2c3d4")
  ∧ Dict.get "janus" call.1.2 = Some (JStr "keepalive")
  ∧ Dict.get "api_secret" bare.1.2 = None
  ∧ Dict.get "token" bare.1.2 = None.
Proof.
  intros call bare.
  destruct (send_attaches_credentials Scenario.secured_gateway Scenario.keepalive
              None None Scenario.world0 call.1.1 call.1.2 call.2 eq_refl eq_refl)
    as (H1 & H2 & _ & _ & H5 & _).
  destruct (send_attaches_credentials Scenario.open_gateway Scenario.keepalive
              None None Scenario.world0 bare.1.1 bare.1.2 bare.2 eq_refl eq_refl)
    as (_ & _ & H3 & H4 & _).
  split; [reflexivity |].
  split; [apply H1; reflexivity |].
  split; [apply H2; reflexivity |].
  split; [rewrite H5 by discriminate; reflexivity |].
  split; [apply H3 | apply H4]; reflexivity.
Defined.

Lemma send_record_shows_credentials_witness :
  let call := send Scenario.secured_gateway Scenario.keepalive None None Scenario.world0 in
  Dict.contains "janus" Scenario.keepalive = true
  ∧ ∃ r, r ∈ log call.2
       ∧ levelname r = INFO
       ∧ msg r = "Send: " +:+ Json.dumps (JDict call.1.2)
       ∧ PyStr.occurs_in "janusrocks" (msg r)
       ∧ PyStr.occurs_in "a1b2c3d4" (msg r).
Proof.
  intros call. split; [reflexivity |].
  destruct (send_record_shows_credentials Scenario.secured_gateway Scenario.keepalive
              None None Scenario.world0 call.1.1 call.1.2 call.2 eq_refl eq_refl)
    as (r & Hin & Hlevel & Hmsg & Hsecret & Htoken).
  exists r. split; [exact Hin |]. split; [exact Hlevel |]. split; [exact Hmsg |].
  split.
  - apply (Hsecret "janusrocks"); reflexivity.
  - apply (Htoken "a1b2c3d4"); reflexivity.
Defined.

(** ** Who owns the tables *)

(** C4: the code does not do what the claim says. [transactions] and
    [sessions] are class attributes that __init__ does not bind again,
    so every instance reads and writes the same two dicts: a slot that
    send registers through one instance is in the table seen through
    any other instance. *)
Theorem instances_share_tables (a b : t) message sid hid w o m' w' :
  send a message sid hid w = (o, m', w') →
  Dict.contains "janus" message = true →
  self_transactions b w !! next_uuid w = None →
  self_transactions b w' !! next_uuid w = Some Queue_new
  ∧ self_transactions b w' ≠ self_transactions b w
  ∧ self_transactions b w' = self_transactions a w'
  ∧ self_sessions b w' = self_sessions a w'.
Proof.
  intros E H Hnew. unfold self_transactions, self_sessions in *.
  destruct (send_effects _ _ _ _ _ _ _ _ E H) as (_ & Ht & _).
  assert (transactions w' !! next_uuid w = Some Queue_new) as Hin
    by (rewrite Ht; apply lookup_insert_eq).
  repeat split; [exact Hin |].
  intros Heq. rewrite Heq in Hin. congruence.
Qed.

Lemma instances_share_tables_witness :
  let call := send Scenario.open_gateway Scenario.keepalive None None Scenario.world0 in
  Scenario.open_gateway ≠ Scenario.other_gateway
  ∧ self_transactions Scenario.other_gateway Scenario.world0
      !! "3f2b8c1e9d4a4f6b8e7c5a1d2b3c4d5e" = None
  ∧ self_transactions Scenario.other_gateway call.2
      !! "3f2b8c1e9d4a4f6b8e7c5a1d2b3c4d5e" = Some Queue_new
  ∧ self_transactions Scenario.other_gateway call.2
      ≠ self_transactions Scenario.other_gateway Scenario.world0.
Proof.
  intros call.
  destruct (instances_share_tables Scenario.open_gateway Scenario.other_gateway
              Scenario.keepalive None None Scenario.world0 call.1.1 call.1.2 call.2
              eq_refl eq_refl eq_refl)
    as (H1 & H2 & _).
  split; [discriminate |]. split; [reflexivity |]. split; [exact H1 | exact H2].
Defined.

(** ** Sessions *)

Import JanusTransport.

(** C6: the code does not do what the claim says. create_session
    builds JanusMessage(janus="create") without the required field
    [transaction]: that raises TypeError before send is called, so
    whatever the reply would be, no id is extracted, no session is
    registered and nothing is returned. *)
Theorem create_session_raises_TypeError
    (send : JanusMessage → Py World json) (int_of_str : string → option Z)
    (session : JanusSession.t) (w : World) :
  create_session send int_of_str session w
  = (Raised (TypeError "JanusMessage.__init__() missing 1 required positional argument: 'transaction'"),
     w).
Proof. reflexivity. Qed.

(** C7, as stated, fails: for a reply without the identifier, neither
    the extraction of the id nor create_session ends with
    ProtocolError. *)
Lemma create_session_without_id_not_ProtocolError :
  session_id_of Scenario.decimal (JDict [("janus", JStr "success")])
    = Raised (KeyError (JStr "data"))
  ∧ class_name (KeyError (JStr "data")) ≠ "ProtocolError"
  ∧ ∃ e, create_session Scenario.send_no_id Scenario.decimal Scenario.session42 Scenario.world0
           = (Raised e, Scenario.world0)
       ∧ class_name e ≠ "ProtocolError".
Proof.
  split; [reflexivity |]. split; [discriminate |].
  eexists. split; [reflexivity | discriminate].
Qed.

(** C7 (amended): for every reply without the identifier field, the
    extraction int(response["data"]["id"]) of create_session fails
    with KeyError('data') when the reply is a dict without "data", with
    KeyError('id') when its "data" is a dict without "id", and with
    TypeError when the reply or its "data" is not a dict; it never
    fails with ProtocolError. *)
Theorem session_id_of_without_id (int_of_str : string → option Z) (response : json) :
  identifier_field response = None →
  ∃ e, session_id_of int_of_str response = Raised e
     ∧ match response with
       | JDict d =>
           match Dict.get "data" d with
           | None => e = KeyError (JStr "data")
           | Some (JDict _) => e = KeyError (JStr "id")
           | Some _ => class_name e = "TypeError"
           end
       | _ => class_name e = "TypeError"
       end
     ∧ class_name e ≠ "ProtocolError".
Proof.
  intros H. unfold session_id_of.
  destruct response as [|b|z|s|l|d]; cbn [getitem identifier_field] in *;
    try (eexists; repeat split; discriminate).
  destruct (Dict.get "data" d) as [data|]; [| eexists; repeat split; discriminate].
  destruct data as [|b|z|s|l|data]; cbn [getitem];
    try (eexists; repeat split; discriminate).
  rewrite H. eexists; repeat split; discriminate.
Qed.

Lemma session_id_of_without_id_witness :
  identifier_field (JDict [("janus", JStr "success"); ("data", JDict [])]) = None
  ∧ ∃ e, session_id_of Scenario.decimal
           (JDict [("janus", JStr "success"); ("data", JDict [])]) = Raised e
       ∧ e = KeyError (JStr "id")
       ∧ class_name e ≠ "ProtocolError".
Proof.
  split; [reflexivity |].
  apply (session_id_of_without_id Scenario.decimal
           (JDict [("janus", JStr "success"); ("data", JDict [])])).
  reflexivity.
Defined.

(** C10: destroy_session raises KeyError, and changes nothing, for
    every session whose id is not a key of the Session Registry; for a
    registered id it removes that entry and no other, so that a second
    call for the same session raises KeyError. *)
Theorem destroy_session_not_idempotent (session : JanusSession.t) (w : World) :
  (sessions w !! JanusSession.id session = None →
   destroy_session session w = (Raised (KeyError (JInt (JanusSession.id session))), w))
  ∧ (is_Some (sessions w !! JanusSession.id session) →
     ∃ w', destroy_session session w = (Returned tt, w')
         ∧ sessions w' !! JanusSession.id session = None
         ∧ (∀ k, k ≠ JanusSession.id session → sessions w' !! k = sessions w !! k)
         ∧ transactions w' = transactions w
         ∧ log w' = log w
         ∧ destroy_session session w'
           = (Raised (KeyError (JInt (JanusSession.id session))), w')).
Proof.
  unfold destroy_session, sessions_delitem. split.
  - intros ->. reflexivity.
  - intros [s Hs]. rewrite Hs. eexists. split; [reflexivity |].
    cbn [set_sessions sessions transactions log].
    rewrite lookup_delete_eq. repeat split.
    intros k Hk. now apply lookup_delete_ne.
Qed.

Lemma destroy_session_not_idempotent_witness :
  sessions Scenario.world0 !! 42 = None
  ∧ destroy_session Scenario.session42 Scenario.world0
    = (Raised (KeyError (JInt 42)), Scenario.world0)
  ∧ is_Some (sessions Scenario.world42 !! 42)
  ∧ ∃ w', destroy_session Scenario.session42 Scenario.world42 = (Returned tt, w')
        ∧ sessions w' !! 42 = None
        ∧ destroy_session Scenario.session42 w' = (Raised (KeyError (JInt 42)), w').
Proof.
  destruct (destroy_session_not_idempotent Scenario.session42 Scenario.world0) as [Habsent _].
  destruct (destroy_session_not_idempotent Scenario.session42 Scenario.world42) as [_ Hpresent].
  split; [reflexivity |]. split; [apply Habsent; reflexivity |].
  assert (is_Some (sessions Scenario.world42 !! 42)) as Hreg
    by (exists Scenario.session42; reflexivity).
  split; [exact Hreg |].
  destruct (Hpresent Hreg) as (w' & H1 & H2 & _ & _ & _ & H3).
  exists w'. split; [exact H1 |]. split; [exact H2 | exact H3].
Defined.

(** * Further properties of the transport *)

(** ** The base URI *)

Lemma append_not_empty (p : string) (c : ascii) : p +:+ String c EmptyString ≠ EmptyString.
Proof. destruct p; discriminate. Qed.

Lemma rstrip_slash_decompose (s : string) :
  ∃ n, s = PyStr.rstrip_slash s +:+ slashes n.
Proof.
  induction s as [|c r [n IH]]; [now exists 0%nat |].
  cbn [PyStr.rstrip_slash].
  destruct (PyStr.rstrip_slash r) as [|a b] eqn:E.
  - destruct (Ascii.eqb c "/") eqn:Ec.
    + apply Ascii.eqb_eq in Ec. subst c. exists (Datatypes.S n).
      rewrite IH at 1. reflexivity.
    + exists n. rewrite IH at 1. reflexivity.
  - exists n. rewrite IH at 1. reflexivity.
Qed.

Lemma rstrip_slash_no_trailing (s p : string) : PyStr.rstrip_slash s ≠ p +:+ "/".
Proof.
  revert p. induction s as [|c r IH]; intros p; cbn [PyStr.rstrip_slash].
  - intros H. symmetry in H. now apply append_not_empty in H.
  - destruct (PyStr.rstrip_slash r) as [|a b] eqn:E.
    + destruct (Ascii.eqb c "/") eqn:Ec.
      * intros H. symmetry in H. now apply append_not_empty in H.
      * destruct p as [|c' p].
        -- change (EmptyString +:+ "/") with "/". intros [= ->]. discriminate.
        -- rewrite append_cons. intros [= _ Hp]. symmetry in Hp.
           now apply append_not_empty in Hp.
    + destruct p as [|c' p].
      * change (EmptyString +:+ "/") with "/". discriminate.
      * rewrite append_cons. intros [= _ Hp]. exact (IH p Hp).
Qed.

Lemma rstrip_slash_fixed (s : string) :
  (∀ p, s ≠ p +:+ "/") → PyStr.rstrip_slash s = s.
Proof.
  induction s as [|c r IH]; intros H; [reflexivity |].
  cbn [PyStr.rstrip_slash]. destruct r as [|a b].
  - cbn [PyStr.rstrip_slash]. destruct (Ascii.eqb c "/") eqn:Ec; [| reflexivity].
    apply Ascii.eqb_eq in Ec. subst c. now destruct (H EmptyString).
  - rewrite IH; [reflexivity |].
    intros p Hp. apply (H (String c p)). rewrite append_cons. now rewrite <- Hp.
Qed.

Lemma rstrip_slash_slashes (n : nat) : PyStr.rstrip_slash (slashes n) = EmptyString.
Proof. induction n as [|n IH]; [reflexivity |]. cbn [slashes PyStr.rstrip_slash]. now rewrite IH. Qed.

Lemma rstrip_slash_more_slashes (s : string) (n : nat) :
  PyStr.rstrip_slash (s +:+ slashes n) = PyStr.rstrip_slash s.
Proof.
  induction s as [|c r IH]; [apply rstrip_slash_slashes |].
  rewrite append_cons. cbn [PyStr.rstrip_slash]. now rewrite IH.
Qed.

(** X1: the URI that __init__ keeps is the given one without its
    trailing slashes, all of them and nothing else; so a transport is
    the same however many slashes end the URI it is made with, and
    making one from a kept URI changes nothing. *)
Theorem init_strips_trailing_slashes (u : string) (a t : option string) :
  (∃ n, u = uri (init u a t) +:+ slashes n)
  ∧ (∀ p, uri (init u a t) ≠ p +:+ "/")
  ∧ (∀ n, init (u +:+ slashes n) a t = init u a t)
  ∧ init (uri (init u a t)) a t = init u a t.
Proof.
  cbn [init uri]. split; [apply rstrip_slash_decompose |].
  split; [intros p; apply rstrip_slash_no_trailing |].
  split; [intros n; unfold init; now rewrite rstrip_slash_more_slashes |].
  unfold init. f_equal. apply rstrip_slash_fixed. intros p. apply rstrip_slash_no_trailing.
Qed.

(** ** How a call of send ends *)

Lemma get_and_print_stdout u w :
  stdout (get_and_print u w).2 =
    stdout w ++
    match http w u with
    | Fails _ => []
    | Responds r =>
        ("Status: " +:+ PyStr.of_Z (status r)) ::
        match content_type r with
        | None => []
        | Some ct =>
            ("Content-type: " +:+ ct) ::
            match text r with
            | inl _ => []
            | inr body => ["Body: " +:+ PyStr.take 15 body +:+ " ..."]
            end
        end
    end.
Proof.
  unfold get_and_print. py_unfold.
  destruct (http w u) as [e|r]; [cbn; now rewrite app_nil_r |].
  destruct (content_type r) as [ct|]; [| reflexivity].
  destruct (text r) as [e|body]; cbn -[PyStr.take]; now rewrite <- !app_assoc.
Qed.

Lemma send_stdout self message sid hid w :
  Dict.contains "janus" message = true →
  stdout (send self message sid hid w).2 =
    stdout (get_and_print (build_uri self sid hid) (at_transmission self message w)).2.
Proof.
  intros H. rewrite (send_accepted _ _ _ _ _ H).
  destruct (get_and_print _ _) as [o w']. reflexivity.
Qed.

Lemma send_raises self message sid hid w :
  ∃ e m' w', send self message sid hid w = (Raised e, m', w').
Proof.
  destruct (Dict.contains "janus" message) eqn:H.
  - destruct (send self message sid hid w) as [[o m'] w'] eqn:E.
    destruct (send_effects _ _ _ _ _ _ _ _ E H) as (_ & _ & _ & _ & _ & _ & _ & Ho).
    assert (∃ e, o = Raised e) as [e ->]; [| now exists e, m', w'].
    rewrite Ho. destruct (http w _) as [e|r]; [now exists e |].
    destruct (content_type r); [destruct (text r) |]; eexists; reflexivity.
  - rewrite (send_rejected _ _ _ _ _ H). now eexists _, _, _.
Qed.

(** X2: every call of send ends by raising: it never returns a reply
    and never stays suspended. Whatever the message, the Session
    Registry is as before, the slots under other ids are as before,
    and the log only grows. *)
Theorem send_always_raises self message sid hid w :
  ∃ e m' w',
    send self message sid hid w = (Raised e, m', w')
    ∧ sessions w' = sessions w
    ∧ (∀ k, k ≠ next_uuid w → transactions w' !! k = transactions w !! k)
    ∧ ∃ added, log w' = log w ++ added.
Proof.
  destruct (send_raises self message sid hid w) as (e & m' & w' & E).
  exists e, m', w'. split; [exact E |].
  destruct (Dict.contains "janus" message) eqn:H.
  - destruct (send_effects _ _ _ _ _ _ _ _ E H) as (_ & Ht & Hs & _ & _ & Hl & _).
    split; [exact Hs |]. split; [| eexists; exact Hl].
    intros k Hk. rewrite Ht. now apply lookup_insert_ne.
  - rewrite (send_rejected _ _ _ _ _ H) in E. injection E as _ _ <-.
    split; [reflexivity |]. split; [reflexivity |].
    exists []. now rewrite app_nil_r.
Qed.

(** X3: when the GET fails, send raises the error of the GET and
    nothing is printed; the request was logged and counted, and the
    slot registered before the GET stays in the Transaction Table. *)
Theorem send_propagates_get_failure self message sid hid w e :
  Dict.contains "janus" message = true →
  http w (build_uri self sid hid) = Fails e →
  ∃ m' w',
    send self message sid hid w = (Raised e, m', w')
    ∧ transactions w' !! next_uuid w = Some Queue_new
    ∧ last (log w') = Some (send_record m')
    ∧ requested w' = requested w ++ [build_uri self sid hid]
    ∧ stdout w' = stdout w.
Proof.
  intros H Hf.
  pose proof (send_stdout self message sid hid w H) as Hout.
  destruct (send self message sid hid w) as [[o m'] w'] eqn:E.
  destruct (send_effects _ _ _ _ _ _ _ _ E H) as (Hm & Ht & _ & _ & _ & Hl & Hr & Ho).
  rewrite Hf in Ho. subst o. exists m', w'.
  split; [reflexivity |].
  split; [rewrite Ht; apply lookup_insert_eq |].
  split; [rewrite Hl, Hm; unfold records; rewrite app_assoc; apply last_snoc |].
  split; [exact Hr |].
  cbn [snd] in Hout. rewrite Hout, get_and_print_stdout.
  cbn [at_transmission http stdout]. rewrite Hf. apply app_nil_r.
Qed.

Lemma send_propagates_get_failure_witness :
  Dict.contains "janus" Scenario.keepalive = true
  ∧ ∃ m' w',
      send Scenario.open_gateway Scenario.keepalive (Some 12) None Outage.unreachable
        = (Raised (ClientError "Cannot connect to host localhost:8088"), m', w')
      ∧ transactions w' !! next_uuid Outage.unreachable = Some Queue_new
      ∧ last (log w') = Some (send_record m')
      ∧ requested w' = ["http://localhost:8088/janus/12"]
      ∧ stdout w' = [].
Proof.
  split; [reflexivity |].
  apply (send_propagates_get_failure Scenario.open_gateway Scenario.keepalive
           (Some 12) None Outage.unreachable
           (ClientError "Cannot connect to host localhost:8088"));
    reflexivity.
Defined.

(** X4: a reply without a content-type header makes send raise
    KeyError('content-type') once the status line is printed; the body
    is not read and the slot stays in the Transaction Table. *)
Theorem send_needs_content_type self message sid hid w r :
  Dict.contains "janus" message = true →
  http w (build_uri self sid hid) = Responds r →
  content_type r = None →
  ∃ m' w',
    send self message sid hid w = (Raised (KeyError (JStr "content-type")), m', w')
    ∧ stdout w' = stdout w ++ ["Status: " +:+ PyStr.of_Z (status r)]
    ∧ transactions w' !! next_uuid w = Some Queue_new.
Proof.
  intros H Hr Hc.
  pose proof (send_stdout self message sid hid w H) as Hout.
  destruct (send self message sid hid w) as [[o m'] w'] eqn:E.
  destruct (send_effects _ _ _ _ _ _ _ _ E H) as (_ & Ht & _ & _ & _ & _ & _ & Ho).
  rewrite Hr, Hc in Ho. subst o. exists m', w'.
  split; [reflexivity |]. split; [| rewrite Ht; apply lookup_insert_eq].
  cbn [snd] in Hout. rewrite Hout, get_and_print_stdout.
  cbn [at_transmission http stdout]. now rewrite Hr, Hc.
Qed.

Lemma send_needs_content_type_witness :
  Dict.contains "janus" Scenario.keepalive = true
  ∧ content_type Outage.bare_reply = None
  ∧ ∃ m' w',
      send Scenario.open_gateway Scenario.keepalive None None Outage.headerless
        = (Raised (KeyError (JStr "content-type")), m', w')
      ∧ stdout w' = ["Status: 204"]
      ∧ transactions w' !! next_uuid Outage.headerless = Some Queue_new.
Proof.
  split; [reflexivity |]. split; [reflexivity |].
  apply (send_needs_content_type Scenario.open_gateway Scenario.keepalive None None
           Outage.headerless Outage.bare_reply);
    reflexivity.
Defined.

(** ** Where the request goes, and what is checked *)

(** X5: an accepted call makes one GET. It goes to the base URI when
    session_id is None or 0, whatever handle_id is; to <uri>/<session>
    when handle_id is None or 0; and to <uri>/<session>/<handle>
    otherwise. *)
Theorem send_requests_built_uri self message sid hid w o m' w' :
  send self message sid hid w = (o, m', w') →
  Dict.contains "janus" message = true →
  ∃ u, requested w' = requested w ++ [u]
     ∧ (truthy sid = false → u = uri self)
     ∧ (∀ s, sid = Some s → s ≠ 0 → truthy hid = false →
          u = uri self +:+ "/" +:+ PyStr.of_Z s)
     ∧ (∀ s h, sid = Some s → s ≠ 0 → hid = Some h → h ≠ 0 →
          u = uri self +:+ "/" +:+ PyStr.of_Z s +:+ "/" +:+ PyStr.of_Z h).
Proof.
  intros E H.
  destruct (send_effects _ _ _ _ _ _ _ _ E H) as (_ & _ & _ & _ & _ & _ & Hr & _).
  exists (build_uri self sid hid). split; [exact Hr |]. unfold build_uri.
  split; [now intros -> |]. split.
  - intros s -> Hs Hh. cbn [truthy default]. rewrite Hh.
    now destruct (Z.eqb_spec s 0).
  - intros s h -> Hs -> Hh. cbn [truthy default].
    destruct (Z.eqb_spec s 0); [done |]. destruct (Z.eqb_spec h 0); [done |].
    cbn [negb]. now rewrite !append_assoc.
Qed.

Lemma send_requests_built_uri_witness :
  let zero := send Scenario.open_gateway Scenario.keepalive (Some 0) (Some 7) Scenario.world0 in
  let both := send Scenario.open_gateway Scenario.keepalive (Some 12) (Some 7) Scenario.world0 in
  Dict.contains "janus" Scenario.keepalive = true
  ∧ requested zero.2 = ["http://localhost:8088/janus"]
  ∧ requested both.2 = ["http://localhost:8088/janus/12/7"].
Proof.
  intros zero both. split; [reflexivity |].
  destruct (send_requests_built_uri Scenario.open_gateway Scenario.keepalive
              (Some 0) (Some 7) Scenario.world0 zero.1.1 zero.1.2 zero.2 eq_refl eq_refl)
    as (u0 & Hr0 & Hbase & _).
  destruct (send_requests_built_uri Scenario.open_gateway Scenario.keepalive
              (Some 12) (Some 7) Scenario.world0 both.1.1 both.1.2 both.2 eq_refl eq_refl)
    as (u1 & Hr1 & _ & _ & Hboth).
  split.
  - rewrite Hr0, (Hbase eq_refl). reflexivity.
  - rewrite Hr1, (Hboth 12 7 eq_refl ltac:(discriminate) eq_refl ltac:(discriminate)).
    reflexivity.
Defined.

(** X6: send checks that the key "janus" is there, not what is under
    it: with any value at all under "janus" the call registers its
    slot and makes its GET, and the value is in the message as the
    caller gave it. *)
Theorem send_checks_presence_only self message v sid hid w :
  Dict.get "janus" message = Some v →
  ∃ e m' w',
    send self message sid hid w = (Raised e, m', w')
    ∧ Dict.get "janus" m' = Some v
    ∧ transactions w' !! next_uuid w = Some Queue_new
    ∧ requested w' = requested w ++ [build_uri self sid hid].
Proof.
  intros Hv.
  assert (Dict.contains "janus" message = true) as H
    by (unfold Dict.contains; now rewrite Hv).
  destruct (send_raises self message sid hid w) as (e & m' & w' & E).
  destruct (send_effects _ _ _ _ _ _ _ _ E H) as (Hm & Ht & _ & _ & _ & _ & Hr & _).
  exists e, m', w'. split; [exact E |].
  split; [subst m'; now rewrite outgoing_other by discriminate |].
  split; [rewrite Ht; apply lookup_insert_eq | exact Hr].
Qed.

Lemma send_checks_presence_only_witness :
  Dict.get "janus" [("janus", JNull)] = Some JNull
  ∧ ∃ e m' w',
      send Scenario.open_gateway [("janus", JNull)] None None Scenario.world0
        = (Raised e, m', w')
      ∧ Dict.get "janus" m' = Some JNull
      ∧ transactions w' !! next_uuid Scenario.world0 = Some Queue_new
      ∧ requested w' = requested Scenario.world0
                        ++ [build_uri Scenario.open_gateway None None].
Proof.
  split; [reflexivity |].
  apply (send_checks_presence_only Scenario.open_gateway [("janus", JNull)] JNull
           None None Scenario.world0).
  reflexivity.
Defined.

(** ** The caller's dict *)

Lemma keys_after_set (k : string) (v : json) (d : pydict) :
  map fst (Dict.set k v d) = map fst d ++ (if Dict.contains k d then [] else [k]).
Proof.
  unfold Dict.contains. induction d as [|[k' v'] d IH]; [reflexivity |].
  cbn [Dict.set Dict.get]. destruct (String.eqb k k') eqn:E.
  - cbn [map fst]. now rewrite app_nil_r.
  - cbn [map fst]. rewrite IH. reflexivity.
Qed.

Lemma contains_after_set (k k' : string) (v : json) (d : pydict) :
  k ≠ k' → Dict.contains k' (Dict.set k v d) = Dict.contains k' d.
Proof. intros H. unfold Dict.contains. now rewrite get_set_ne. Qed.

Lemma contains_after_set_eq (k : string) (v : json) (d : pydict) :
  Dict.contains k (Dict.set k v d) = true.
Proof. unfold Dict.contains. now rewrite get_set_eq. Qed.

Lemma outgoing_keys self tid m :
  map fst (outgoing self tid m)
  = map fst m ++ List.filter (λ k, negb (Dict.contains k m)) (sent_keys self).
Proof.
  unfold outgoing, with_credentials, sent_keys.
  destruct (api_secret self), (token self);
    rewrite !keys_after_set, ?contains_after_set by discriminate;
    cbn [app List.filter];
    destruct (Dict.contains "transaction" m), (Dict.contains "api_secret" m),
      (Dict.contains "token" m);
    cbn [negb app]; rewrite <- ?app_assoc, ?app_nil_r; reflexivity.
Qed.

(** X7: send changes the caller's dict in place without moving
    anything: the caller's keys keep their order, and the keys that
    send writes (transaction, then api_secret and token when
    configured) are added at the end, in that order, unless the dict
    already had them. *)
Theorem send_appends_new_keys self message sid hid w o m' w' :
  send self message sid hid w = (o, m', w') →
  Dict.contains "janus" message = true →
  map fst m' = map fst message
               ++ List.filter (λ k, negb (Dict.contains k message)) (sent_keys self).
Proof.
  intros E H. destruct (send_effects _ _ _ _ _ _ _ _ E H) as (-> & _).
  apply outgoing_keys.
Qed.

Lemma send_appends_new_keys_witness :
  let call := send Scenario.secured_gateway Scenario.info_with_transaction
                None None Scenario.world0 in
  Dict.contains "janus" Scenario.info_with_transaction = true
  ∧ map fst call.1.2 = ["janus"; "transaction"; "api_secret"; "token"].
Proof.
  intros call. split; [reflexivity |].
  etrans;
    [apply (send_appends_new_keys Scenario.secured_gateway Scenario.info_with_transaction
              None None Scenario.world0 call.1.1 call.1.2 call.2 eq_refl eq_refl) |].
  reflexivity.
Defined.

(** X8: a dict that send has been given carries the id of that call.
    Sending the same dict again through the same transport logs the
    warning "Should not set transaction" with the first id in it,
    writes the new id over the first, and adds no key. *)
Theorem send_same_dict_again_warns self message sid hid w o m' w' sid2 hid2 o2 m2 w2 :
  send self message sid hid w = (o, m', w') →
  Dict.contains "janus" message = true →
  send self m' sid2 hid2 w' = (o2, m2, w2) →
  log w2 = log w' ++ [warning_of (JStr (next_uuid w)); send_record m2]
  ∧ Dict.get "transaction" m2 = Some (JStr (next_uuid w'))
  ∧ map fst m2 = map fst m'.
Proof.
  intros E H E2.
  destruct (send_effects _ _ _ _ _ _ _ _ E H) as (Hm & _).
  assert (Dict.get "transaction" m' = Some (JStr (next_uuid w))) as Ht
    by (subst m'; apply outgoing_transaction).
  assert (Dict.contains "janus" m' = true) as H'.
  { subst m'. unfold Dict.contains. rewrite outgoing_other by discriminate. exact H. }
  destruct (send_effects _ _ _ _ _ _ _ _ E2 H') as (Hm2 & _ & _ & _ & _ & Hl2 & _).
  split; [| split].
  - rewrite Hl2. unfold records. rewrite Ht, Hm2. reflexivity.
  - rewrite Hm2. apply outgoing_transaction.
  - rewrite Hm2, outgoing_keys.
    assert (List.filter (λ k, negb (Dict.contains k m')) (sent_keys self) = []) as ->;
      [| apply app_nil_r].
    clear Ht H' E2 Hl2. subst m'. unfold sent_keys.
    destruct (api_secret self) eqn:Ea, (token self) eqn:Et;
      cbn [app List.filter]; unfold Dict.contains;
      rewrite ?outgoing_transaction, ?outgoing_api_secret, ?outgoing_token, ?Ea, ?Et;
      reflexivity.
Qed.

Lemma send_same_dict_again_warns_witness :
  Dict.contains "janus" Scenario.keepalive = true
  ∧ ∃ o m' w' o2 m2 w2,
      send Scenario.secured_gateway Scenario.keepalive None None Scenario.world0 = (o, m', w')
      ∧ send Scenario.secured_gateway m' None None w' = (o2, m2, w2)
      ∧ log w2 = log w' ++ [warning_of (JStr "3f2b8c1e9d4a4f6b8e7c5a1d2b3c4d5e");
                            send_record m2]
      ∧ Dict.get "transaction" m2 = Some (JStr (next_uuid w'))
      ∧ map fst m2 = map fst m'.
Proof.
  split; [reflexivity |].
  destruct (send Scenario.secured_gateway Scenario.keepalive None None Scenario.world0)
    as [[o m'] w'] eqn:E1.
  destruct (send Scenario.secured_gateway m' None None w') as [[o2 m2] w2] eqn:E2.
  exists o, m', w', o2, m2, w2. split; [reflexivity |]. split; [exact E2 |].
  apply (send_same_dict_again_warns Scenario.secured_gateway Scenario.keepalive
           None None Scenario.world0 o m' w' None None o2 m2 w2 E1 eq_refl E2).
Defined.

(** ** Many calls *)

Lemma send_each_step (c : Calls.Call) (calls : list Calls.Call) (w : World) :
  ∃ o m' w1,
    send (Calls.target c) (Calls.call_message c) (Calls.call_session_id c)
      (Calls.call_handle_id c) w = (o, m', w1)
    ∧ (Calls.send_each (c :: calls) w).1 = m' :: (Calls.send_each calls w1).1
    ∧ (Calls.send_each (c :: calls) w).2 = (Calls.send_each calls w1).2.
Proof.
  cbn [Calls.send_each].
  destruct (send _ _ _ _ w) as [[o m'] w1]. exists o, m', w1.
  destruct (Calls.send_each calls w1) as [ms w2]. repeat split.
Qed.

(** X9: over any list of calls, made one after the other, uuid4 is
    called once for each message that has the key "janus" and not at
    all for the others; the GETs are those of the accepted calls, in
    the order of the calls; the Session Registry is never touched. *)
Theorem send_each_accounts (calls : list Calls.Call) : ∀ w,
  uuid4_calls (Calls.send_each calls w).2
    = (uuid4_calls w + length (List.filter is_accepted calls))%nat
  ∧ uuid4_hex (Calls.send_each calls w).2 = uuid4_hex w
  ∧ requested (Calls.send_each calls w).2
    = requested w ++ (uri_of_call <$> List.filter is_accepted calls)
  ∧ sessions (Calls.send_each calls w).2 = sessions w
  ∧ length (Calls.send_each calls w).1 = length calls.
Proof.
  induction calls as [|c calls IH]; intros w.
  - cbn. rewrite Nat.add_0_r, app_nil_r. repeat split.
  - destruct (send_each_step c calls w) as (o & m' & w1 & E & -> & ->).
    destruct (IH w1) as (Hn & Hu & Hr & Hs & Hl).
    rewrite Hn, Hu, Hr, Hs. cbn [length List.filter]. rewrite Hl.
    destruct (is_accepted c) eqn:H; unfold is_accepted in H.
    + destruct (send_effects _ _ _ _ _ _ _ _ E H)
        as (_ & _ & Hs1 & Hu1 & Hn1 & _ & Hr1 & _).
      rewrite Hn1, Hu1, Hr1, Hs1. cbn [length fmap list_fmap].
      rewrite <- app_assoc. repeat split. lia.
    + rewrite (send_rejected _ _ _ _ _ H) in E. injection E as _ _ <-.
      repeat split.
Qed.

Lemma send_each_slots (calls : list Calls.Call) : ∀ w,
  dom (transactions (Calls.send_each calls w).2)
  = dom (transactions w)
    ∪ list_to_set (uuid4_hex w
                     <$> seq (uuid4_calls w) (length (List.filter is_accepted calls))).
Proof.
  induction calls as [|c calls IH]; intros w.
  - cbn. now rewrite (right_id_L ∅ (∪)).
  - destruct (send_each_step c calls w) as (o & m' & w1 & E & _ & ->).
    rewrite (IH w1). cbn [List.filter].
    destruct (is_accepted c) eqn:H; unfold is_accepted in H.
    + destruct (send_effects _ _ _ _ _ _ _ _ E H) as (_ & Ht & _ & Hu & Hn & _).
      rewrite Ht, Hu, Hn, dom_insert_L. cbn [length seq fmap list_fmap list_to_set].
      unfold next_uuid.
      now rewrite (comm_L (∪) {[_]} (dom (transactions w))), <- (assoc_L (∪)).
    + rewrite (send_rejected _ _ _ _ _ H) in E. injection E as _ _ <-. reflexivity.
Qed.

(** X10: no call ever frees a slot. After any list of calls the keys
    of the Transaction Table are the keys before them and the ids
    given to the accepted calls; where uuid4 gives ids that are new
    and different from each other, the table has one entry more for
    every accepted call. *)
Theorem send_each_never_frees_a_slot (calls : list Calls.Call) (w : World) :
  let ids := uuid4_hex w
               <$> seq (uuid4_calls w) (length (List.filter is_accepted calls)) in
  dom (transactions (Calls.send_each calls w).2) = dom (transactions w) ∪ list_to_set ids
  ∧ (NoDup ids →
     (∀ x, x ∈ ids → transactions w !! x = None) →
     size (transactions (Calls.send_each calls w).2)
     = (size (transactions w) + length (List.filter is_accepted calls))%nat).
Proof.
  intros ids. split; [apply send_each_slots |].
  intros Hnd Hnew.
  rewrite <- (size_dom (D := gset string)), send_each_slots, size_union.
  - rewrite size_dom, size_list_to_set by exact Hnd.
    unfold ids. now rewrite length_fmap, length_seq.
  - intros x Hx Hin. apply elem_of_list_to_set in Hin.
    apply elem_of_dom in Hx as [q Hq]. rewrite (Hnew x Hin) in Hq. discriminate.
Qed.

Lemma send_each_never_frees_a_slot_witness :
  length (List.filter is_accepted Outage.mixed_calls) = 2%nat
  ∧ size (transactions (Calls.send_each Outage.mixed_calls Scenario.world0).2) = 2%nat.
Proof.
  split; [reflexivity |].
  destruct (send_each_never_frees_a_slot Outage.mixed_calls Scenario.world0) as [_ Hsize].
  apply Hsize.
  - apply (bool_decide_unpack _). vm_compute. exact I.
  - intros x Hx. reflexivity.
Defined.

(** ** info *)

(** X11: info makes one GET, of <uri>/info, and touches nothing else:
    the Transaction Table, the Session Registry, the uuid4 count and
    the log are as before, so it registers no slot and logs nothing.
    It returns exactly when the GET is answered with a content-type
    header, a readable body and a body that reads as JSON, and what it
    returns is that JSON value; in every other case it raises. *)
Theorem info_only_reads (response_json : HttpResponse → PyExc + json) (self : t) (w : World) :
  ∃ o w',
    Info.info response_json self w = (o, w')
    ∧ transactions w' = transactions w
    ∧ sessions w' = sessions w
    ∧ uuid4_calls w' = uuid4_calls w
    ∧ log w' = log w
    ∧ requested w' = requested w ++ [uri self +:+ "/info"]
    ∧ (∀ v, o = Returned v ↔
            ∃ r ct body,
              http w (uri self +:+ "/info") = Responds r
              ∧ content_type r = Some ct
              ∧ text r = inr body
              ∧ response_json r = inr v)
    ∧ ((∃ v, o = Returned v) ∨ (∃ e, o = Raised e)).
Proof.
  unfold Info.info. py_unfold.
  destruct (http w (uri self +:+ "/info")) as [e|r] eqn:Eh.
  { eexists _, _. split; [reflexivity |]. repeat split.
    - discriminate.
    - intros (r & ct & body & [=] & _).
    - right. now eexists. }
  destruct (content_type r) as [ct|] eqn:Ec.
  2:{ eexists _, _. split; [reflexivity |]. repeat split.
      - discriminate.
      - intros (r' & ct & body & [= <-] & Hc & _). congruence.
      - right. now eexists. }
  destruct (text r) as [e|body] eqn:Et.
  { eexists _, _. split; [reflexivity |]. repeat split.
    - discriminate.
    - intros (r' & ct' & body & [= <-] & _ & Hb & _). congruence.
    - right. now eexists. }
  destruct (response_json r) as [e|v] eqn:Ej.
  - eexists _, _. split; [reflexivity |]. repeat split.
    + discriminate.
    + intros (r' & ct' & body' & [= <-] & _ & _ & Hj). congruence.
    + right. now eexists.
  - eexists _, _. split; [reflexivity |]. repeat split.
    + intros [= <-]. now exists r, ct, body.
    + intros (r' & ct' & body' & [= <-] & _ & _ & Hj). congruence.
    + left. now eexists.
Qed.

(** ** The identifier of a session *)

(** X12: int(response["data"]["id"]) gives z exactly when the reply is
    a dict whose "data" is a dict with an "id" that int() reads as z;
    an integer id is returned as it is, and true and false are read as
    1 and 0. Other fields of the reply play no part. *)
Theorem session_id_of_reads_data_id (int_of_str : string → option Z) (response : json) :
  (∀ z, session_id_of int_of_str response = Returned z ↔
        ∃ v, identifier_field response = Some v ∧ py_int int_of_str v = Returned z)
  ∧ (∀ n, identifier_field response = Some (JInt n) →
          session_id_of int_of_str response = Returned n)
  ∧ (∀ b, identifier_field response = Some (JBool b) →
          session_id_of int_of_str response = Returned (if b then 1 else 0)).
Proof.
  assert (Hiff : ∀ z, session_id_of int_of_str response = Returned z ↔
            ∃ v, identifier_field response = Some v ∧ py_int int_of_str v = Returned z).
  { intros z. unfold session_id_of.
    destruct response as [|b|x|s|l|d]; cbn [getitem identifier_field];
      try (split; [discriminate | intros (v & [=] & _)]).
    destruct (Dict.get "data" d) as [data|];
      [| split; [discriminate | intros (v & [=] & _)]].
    destruct data as [|b|x|s|l|data]; cbn [getitem];
      try (split; [discriminate | intros (v & [=] & _)]).
    destruct (Dict.get "id" data) as [ident|].
    - split; [intros H; now exists ident | intros (v & [= <-] & H); exact H].
    - split; [discriminate | intros (v & [=] & _)]. }
  split; [exact Hiff |]. split.
  - intros n H. apply Hiff. now exists (JInt n).
  - intros b H. apply Hiff. now exists (JBool b).
Qed.

(** ** Registering and destroying sessions *)

Lemma world_eq (w w' : World) :
  transactions w' = transactions w → sessions w' = sessions w →
  uuid4_hex w' = uuid4_hex w → uuid4_calls w' = uuid4_calls w →
  http w' = http w → log w' = log w → stdout w' = stdout w →
  requested w' = requested w → w' = w.
Proof. destruct w, w'. cbn. intros. now subst. Qed.

(** X13: registering a session under its id and then destroying it
    succeeds and leaves the Session Registry without that id; when the
    id was free before, the whole world is as it was. A session that
    was under that id before is gone, not restored. *)
Theorem register_then_destroy (session : JanusSession.t) (w : World) :
  ∃ w',
    (sessions_setitem (JanusSession.id session) session ≫= λ _, destroy_session session) w
      = (Returned tt, w')
    ∧ sessions w' = delete (JanusSession.id session) (sessions w)
    ∧ sessions w' !! JanusSession.id session = None
    ∧ (sessions w !! JanusSession.id session = None → w' = w).
Proof.
  unfold sessions_setitem, destroy_session, sessions_delitem. py_unfold.
  cbn [sessions]. rewrite lookup_insert_eq. eexists. split; [reflexivity |].
  cbn [sessions]. rewrite delete_insert_eq.
  split; [reflexivity |]. split; [apply lookup_delete_eq |].
  intros Hfree. apply world_eq; cbn; try reflexivity. now apply delete_id.
Qed.

(** X14: destroying two registered sessions with different ids gives
    the same world in either order: both calls succeed, both ids are
    gone, every other session is kept, and nothing is requested or
    logged. *)
Theorem destroy_sessions_commute (a b : JanusSession.t) (w : World) :
  JanusSession.id a ≠ JanusSession.id b →
  is_Some (sessions w !! JanusSession.id a) →
  is_Some (sessions w !! JanusSession.id b) →
  ∃ w',
    (destroy_session a ≫= λ _, destroy_session b) w = (Returned tt, w')
    ∧ (destroy_session b ≫= λ _, destroy_session a) w = (Returned tt, w')
    ∧ sessions w' !! JanusSession.id a = None
    ∧ sessions w' !! JanusSession.id b = None
    ∧ (∀ k, k ≠ JanusSession.id a → k ≠ JanusSession.id b →
            sessions w' !! k = sessions w !! k)
    ∧ transactions w' = transactions w
    ∧ requested w' = requested w
    ∧ log w' = log w.
Proof.
  intros Hne [sa Ha] [sb Hb].
  exists (set_sessions (delete (JanusSession.id b)) (set_sessions (delete (JanusSession.id a)) w)).
  unfold destroy_session, sessions_delitem. py_unfold. cbn [sessions].
  rewrite Ha, Hb. cbn [sessions].
  rewrite lookup_delete_ne, Hb by exact Hne.
  rewrite lookup_delete_ne, Ha by (intros ?; now apply Hne).
  split; [reflexivity |]. split.
  - f_equal. apply world_eq; cbn; try reflexivity. apply delete_delete.
  - cbn [sessions transactions requested log]. repeat split.
    + rewrite lookup_delete_ne by (intros ?; now apply Hne). apply lookup_delete_eq.
    + apply lookup_delete_eq.
    + intros k Hka Hkb. rewrite !lookup_delete_ne by congruence. reflexivity.
Qed.

Lemma destroy_sessions_commute_witness :
  JanusSession.id Outage.session7 ≠ JanusSession.id Scenario.session42
  ∧ is_Some (sessions Outage.two_sessions !! 7)
  ∧ is_Some (sessions Outage.two_sessions !! 42)
  ∧ ∃ w',
      (destroy_session Outage.session7 ≫= λ _, destroy_session Scenario.session42)
        Outage.two_sessions = (Returned tt, w')
      ∧ (destroy_session Scenario.session42 ≫= λ _, destroy_session Outage.session7)
          Outage.two_sessions = (Returned tt, w')
      ∧ sessions w' !! 7 = None
      ∧ sessions w' !! 42 = None.
Proof.
  assert (JanusSession.id Outage.session7 ≠ JanusSession.id Scenario.session42) as Hne
    by discriminate.
  assert (is_Some (sessions Outage.two_sessions !! 7)) as H7
    by (exists Outage.session7; reflexivity).
  assert (is_Some (sessions Outage.two_sessions !! 42)) as H42
    by (exists Scenario.session42; reflexivity).
  split; [exact Hne |]. split; [exact H7 |]. split; [exact H42 |].
  destruct (destroy_sessions_commute Outage.session7 Scenario.session42
              Outage.two_sessions Hne H7 H42)
    as (w' & E1 & E2 & Ha & Hb & _).
  exists w'. split; [exact E1 |]. split; [exact E2 |]. split; [exact Ha | exact Hb].
Defined.

(** ** What the gateway is sent *)

(** X15: the GET of send carries nothing of the message. Two accepted
    messages, sent through the same transport with the same ids from
    the same world, end the same way, ask for the same URI, print the
    same lines and leave the same Transaction Table: only the caller's
    dict and the log differ. *)
Theorem send_outcome_ignores_message self m1 m2 sid hid w :
  Dict.contains "janus" m1 = true →
  Dict.contains "janus" m2 = true →
  (send self m1 sid hid w).1.1 = (send self m2 sid hid w).1.1
  ∧ requested (send self m1 sid hid w).2 = requested (send self m2 sid hid w).2
  ∧ stdout (send self m1 sid hid w).2 = stdout (send self m2 sid hid w).2
  ∧ transactions (send self m1 sid hid w).2 = transactions (send self m2 sid hid w).2.
Proof.
  intros H1 H2.
  rewrite !send_stdout, !get_and_print_stdout by assumption.
  cbn [at_transmission http stdout].
  destruct (send self m1 sid hid w) as [[o1 m1'] w1] eqn:E1.
  destruct (send self m2 sid hid w) as [[o2 m2'] w2] eqn:E2.
  destruct (send_effects _ _ _ _ _ _ _ _ E1 H1) as (_ & Ht1 & _ & _ & _ & _ & Hr1 & Ho1).
  destruct (send_effects _ _ _ _ _ _ _ _ E2 H2) as (_ & Ht2 & _ & _ & _ & _ & Hr2 & Ho2).
  cbn [fst snd]. rewrite Ho1, Ho2, Hr1, Hr2, Ht1, Ht2. repeat split.
Qed.

Lemma send_outcome_ignores_message_witness :
  Dict.contains "janus" Scenario.keepalive = true
  ∧ Dict.contains "janus" Scenario.info_with_transaction = true
  ∧ (send Scenario.open_gateway Scenario.keepalive (Some 12) None Scenario.world0).1.1
    = (send Scenario.open_gateway Scenario.info_with_transaction (Some 12) None
         Scenario.world0).1.1
  ∧ requested (send Scenario.open_gateway Scenario.keepalive (Some 12) None Scenario.world0).2
    = requested (send Scenario.open_gateway Scenario.info_with_transaction (Some 12) None
                   Scenario.world0).2.
Proof.
  split; [reflexivity |]. split; [reflexivity |].
  destruct (send_outcome_ignores_message Scenario.open_gateway Scenario.keepalive
              Scenario.info_with_transaction (Some 12) None Scenario.world0
              eq_refl eq_refl) as (Ho & Hr & _).
  split; [exact Ho | exact Hr].
Defined.

(** ** The further properties on the example gateways *)

Lemma info_only_reads_witness :
  ∃ w',
    Info.info Outage.read_server_info Scenario.open_gateway Scenario.world0
      = (Returned Outage.server_info, w')
    ∧ transactions w' = transactions Scenario.world0
    ∧ log w' = log Scenario.world0
    ∧ requested w' = ["http://localhost:8088/janus/info"].
Proof.
  destruct (info_only_reads Outage.read_server_info Scenario.open_gateway Scenario.world0)
    as (o & w' & E & Ht & _ & _ & Hl & Hr & Hiff & _).
  assert (o = Returned Outage.server_info) as ->.
  { apply Hiff. exists Scenario.ack, "application/json",
      (Json.dumps (JDict [("janus", JStr "ack")])). repeat split. }
  exists w'. split; [exact E |]. split; [exact Ht |]. split; [exact Hl | exact Hr].
Defined.

Lemma session_id_of_reads_data_id_witness :
  identifier_field
    (JDict [("janus", JStr "success"); ("data", JDict [("id", JInt 42)])])
  = Some (JInt 42)
  ∧ session_id_of Scenario.decimal
      (JDict [("janus", JStr "success"); ("data", JDict [("id", JInt 42)])])
    = Returned 42.
Proof.
  split; [reflexivity |].
  destruct (session_id_of_reads_data_id Scenario.decimal
              (JDict [("janus", JStr "success"); ("data", JDict [("id", JInt 42)])]))
    as (_ & Hint & _).
  apply Hint. reflexivity.
Defined.

Lemma register_then_destroy_witness :
  sessions Scenario.world0 !! JanusSession.id Scenario.session42 = None
  ∧ (sessions_setitem 42 Scenario.session42 ≫= λ _, destroy_session Scenario.session42)
      Scenario.world0 = (Returned tt, Scenario.world0).
Proof.
  split; [reflexivity |].
  destruct (register_then_destroy Scenario.session42 Scenario.world0)
    as (w' & E & _ & _ & Hsame).
  rewrite <- (Hsame eq_refl) at 2. exact E.
Defined.
